(** * GeoJSON winding-order checker: a shallow embedding of
    [geojson_rewind_app.py] and the properties of its core.

    The program works on documents returned by [json.load]: dynamically
    typed trees of dicts, lists, strings, numbers, booleans and [None].  The
    embedding keeps that shape ([pyval]), gives the Python operations the
    code applies to such values ([.get], subscripting, iteration, [zip],
    unpacking, arithmetic) together with the exceptions they raise, and
    translates [calculate_signed_area], [check_winding_and_geometry] and the
    batch loop statement by statement. *)

From Stdlib Require Import ZArith QArith List String Ascii Bool Lia Lqa SpecFloat DecimalString.
From Stdlib Require Import Permutation.
Import ListNotations.

Set Implicit Arguments.
Set Warnings "-register-all".

Local Open Scope string_scope.
Local Open Scope Z_scope.

(** ** Values *)

(** What [json.load] builds.  A [PyStr] holds one [ascii] per character
    (documents whose strings stay within the 8-bit range); a [PyDict] keeps
    its items in insertion order, which is the order Python iterates in. *)
Inductive pyval : Type :=
| PyNone
| PyBool (b : bool)
| PyInt (z : Z)
| PyFloat (f : spec_float)
| PyStr (s : string)
| PyList (l : list pyval)
| PyDict (d : list (string * pyval)).

(** ** Exceptions *)

Inductive exn : Type :=
| TypeError
| ValueError
| KeyError (key : string)
| IndexError
| AttributeError
| OverflowError
| MemoryError
| LibraryError (msg : string).

Inductive result (A : Type) : Type :=
| Ok (a : A)
| Raise (e : exn).

Arguments Ok {A} a.
Arguments Raise {A} e.

Definition bind {A B : Type} (m : result A) (k : A -> result B) : result B :=
  match m with
  | Ok a => k a
  | Raise e => Raise e
  end.

Notation "x <- m ;; k" := (bind m (fun x => k))
  (at level 61, m at next level, right associativity).
Notation "' p <- m ;; k" := (bind m (fun x => let p := x in k))
  (at level 61, p pattern, m at next level, right associativity).

(** [try: body except: handler] with a handler that sees the exception. *)
Definition try_except {A : Type} (body : result A) (handler : exn -> A) : A :=
  match body with
  | Ok a => a
  | Raise e => handler e
  end.

(** Run the loop body over the items in order; the first exception that
    escapes a body ends the loop. *)
Fixpoint mapM {A B : Type} (f : A -> result B) (l : list A) : result (list B) :=
  match l with
  | [] => Ok []
  | a :: l' => b <- f a ;; bs <- mapM f l' ;; Ok (b :: bs)
  end.

(** ** Binary64 arithmetic, as CPython's [float] *)

Definition prec : Z := 53.
Definition emax : Z := 1024.

Definition fzero : spec_float := S754_zero false.
(** The literal [0.5]. *)
Definition fhalf : spec_float := Eval cbv in binary_normalize prec emax 1 (-1) false.

(** [float(n)] for an [int]: round to nearest-even, [OverflowError] when the
    rounded value does not fit. *)
Definition float_of_int (z : Z) : result spec_float :=
  match binary_normalize prec emax z 0 false with
  | S754_infinity _ => Raise OverflowError
  | f => Ok f
  end.

(** The numeric tower of the values at hand: [bool] is a subclass of
    [int]. *)
Inductive num : Type :=
| NInt (z : Z)
| NFloat (f : spec_float).

Definition as_num (v : pyval) : option num :=
  match v with
  | PyBool b => Some (NInt (Z.b2z b))
  | PyInt z => Some (NInt z)
  | PyFloat f => Some (NFloat f)
  | _ => None
  end.

Definition py_of_num (n : num) : pyval :=
  match n with
  | NInt z => PyInt z
  | NFloat f => PyFloat f
  end.

Definition to_float (n : num) : result spec_float :=
  match n with
  | NInt z => float_of_int z
  | NFloat f => Ok f
  end.

(** A binary operator on numbers: exact on two [int]s, otherwise both
    operands are coerced to [float] (left first) and the operation is the
    IEEE one. *)
Definition num_binop (fz : Z -> Z -> Z)
    (ff : spec_float -> spec_float -> spec_float) (a b : num) : result pyval :=
  match a, b with
  | NInt x, NInt y => Ok (PyInt (fz x y))
  | _, _ => x <- to_float a ;; y <- to_float b ;; Ok (PyFloat (ff x y))
  end.

(** Largest sequence length ([sys.maxsize] on a 64-bit build). *)
Definition maxsize : Z := 2 ^ 63 - 1.

Fixpoint repeat_string (s : string) (n : nat) : string :=
  match n with
  | O => EmptyString
  | S n' => s ++ repeat_string s n'
  end.

(** [seq * n] for a [str] or a [list]. *)
Definition seq_repeat (len : nat) (n : Z) (build : nat -> pyval) : result pyval :=
  if maxsize <? n then Raise OverflowError
  else if maxsize <? Z.of_nat len * Z.max 0 n then Raise MemoryError
  else Ok (build (Z.to_nat n)).

Definition int_of (v : pyval) : option Z :=
  match v with
  | PyBool b => Some (Z.b2z b)
  | PyInt z => Some z
  | _ => None
  end.

Definition py_repeat (sq count : pyval) : result pyval :=
  match sq, int_of count with
  | PyStr s, Some n =>
      seq_repeat (String.length s) n (fun k => PyStr (repeat_string s k))
  | PyList l, Some n =>
      seq_repeat (List.length l) n (fun k => PyList (List.concat (List.repeat l k)))
  | _, _ => Raise TypeError
  end.

(** [a * b] *)
Definition py_mul (a b : pyval) : result pyval :=
  match as_num a, as_num b with
  | Some x, Some y => num_binop Z.mul (SFmul prec emax) x y
  | None, Some _ => py_repeat a b
  | Some _, None => py_repeat b a
  | None, None => Raise TypeError
  end.

(** [a - b] *)
Definition py_sub (a b : pyval) : result pyval :=
  match as_num a, as_num b with
  | Some x, Some y => num_binop Z.sub (SFsub prec emax) x y
  | _, _ => Raise TypeError
  end.

(** [a + b] *)
Definition py_add (a b : pyval) : result pyval :=
  match as_num a, as_num b with
  | Some x, Some y => num_binop Z.add (SFadd prec emax) x y
  | _, _ =>
      match a, b with
      | PyStr s, PyStr t => Ok (PyStr (s ++ t))
      | PyList l, PyList m => Ok (PyList (l ++ m))
      | _, _ => Raise TypeError
      end
  end.

(** [v > 0] with the [int] literal [0]: exact on [int] and [float] (a NaN
    compares false), [TypeError] on anything that is not a number. *)
Definition py_gt_zero (v : pyval) : result bool :=
  match as_num v with
  | Some (NInt z) => Ok (0 <? z)
  | Some (NFloat f) => Ok (SFltb fzero f)
  | None => Raise TypeError
  end.

(** ** Containers *)

Fixpoint assoc (k : string) (d : list (string * pyval)) : option pyval :=
  match d with
  | [] => None
  | (k', v) :: d' => if String.eqb k k' then Some v else assoc k d'
  end.

(** [obj.get(key, default)]: only a [dict] has the method. *)
Definition py_get (obj : pyval) (key : string) (default : pyval) : result pyval :=
  match obj with
  | PyDict d => Ok (match assoc key d with Some v => v | None => default end)
  | _ => Raise AttributeError
  end.

(** [obj[key]] with a string key. *)
Definition py_getitem (obj : pyval) (key : string) : result pyval :=
  match obj with
  | PyDict d =>
      match assoc key d with
      | Some v => Ok v
      | None => Raise (KeyError key)
      end
  | _ => Raise TypeError
  end.

(** The items [iter(v)] yields: the elements of a list, the characters of a
    string, the keys of a dict. *)
Definition py_iter (v : pyval) : result (list pyval) :=
  match v with
  | PyList l => Ok l
  | PyStr s => Ok (map (fun c => PyStr (String c EmptyString)) (list_ascii_of_string s))
  | PyDict d => Ok (map (fun kv => PyStr (fst kv)) d)
  | _ => Raise TypeError
  end.

(** [len(v)] *)
Definition py_len (v : pyval) : result nat :=
  match v with
  | PyList l => Ok (List.length l)
  | PyStr s => Ok (String.length s)
  | PyDict d => Ok (List.length d)
  | _ => Raise TypeError
  end.

(** [t[i]] on a tuple, [0 <= i]. *)
Definition py_index (t : list pyval) (i : nat) : result pyval :=
  match nth_error t i with
  | Some v => Ok v
  | None => Raise IndexError
  end.

(** Number of tuples [zip] yields: the length of the shortest argument, none
    for no argument. *)
Definition zip_len (rows : list (list pyval)) : nat :=
  match rows with
  | [] => O
  | r :: rs => fold_left Nat.min (map (@List.length pyval) rs) (List.length r)
  end.

(** [zip] called on the unpacked [coords], exhausted: every argument must be iterable; the [j]-th
    tuple holds the [j]-th item of each argument. *)
Definition py_zip_star (coords : pyval) : result (list (list pyval)) :=
  args <- py_iter coords ;;
  rows <- mapM py_iter args ;;
  Ok (map (fun j => map (fun r => nth j r PyNone) rows) (seq 0 (zip_len rows))).

(** [x, y = it] *)
Definition unpack2 {A : Type} (l : list A) : result (A * A) :=
  match l with
  | [x; y] => Ok (x, y)
  | _ => Raise ValueError
  end.

(** [sum(gen)]: the running total starts at the [int] [0] and each item is
    produced, then added, in turn.  This is plain accumulation; CPython 3.12
    and later compensate the rounding error of a [float] total, which
    changes nothing while the total is an [int] or the additions are
    exact. *)
Fixpoint py_sum_from (acc : pyval) (gen : list (result pyval)) : result pyval :=
  match gen with
  | [] => Ok acc
  | item :: gen' => t <- item ;; acc' <- py_add acc t ;; py_sum_from acc' gen'
  end.

Definition py_sum (gen : list (result pyval)) : result pyval :=
  py_sum_from (PyInt 0) gen.

(** ** [calculate_signed_area] *)

(** The generator's item [x[i]*y[i+1] - x[i+1]*y[i]]. *)
Definition area_term (x y : list pyval) (i : nat) : result pyval :=
  a <- py_index x i ;;
  b <- py_index y (S i) ;;
  p <- py_mul a b ;;
  c <- py_index x (S i) ;;
  d <- py_index y i ;;
  q <- py_mul c d ;;
  py_sub p q.

Definition calculate_signed_area (coords : pyval) : result pyval :=
  cols <- py_zip_star coords ;;
  '(x, y) <- unpack2 cols ;;
  n <- py_len coords ;;
  s <- py_sum (map (area_term x y) (seq 0 (n - 1))) ;;
  py_mul (PyFloat fhalf) s.

(** ** Literals used in the examples *)

Definition pt (x y : Z) : pyval := PyList [PyInt x; PyInt y].

Definition reference_square : pyval :=
  PyList [pt 0 0; pt 1 0; pt 1 1; pt 0 1; pt 0 0].

Definition reversed_square : pyval :=
  PyList [pt 0 0; pt 0 1; pt 1 1; pt 1 0; pt 0 0].

Definition fone : spec_float := Eval cbv in binary_normalize prec emax 1 0 false.
Definition fminus_one : spec_float := Eval cbv in binary_normalize prec emax (-1) 0 false.

(** ** [check_winding_and_geometry] *)

Inductive winding_t : Type :=
| Counterclockwise
| Clockwise
| Unknown.

Definition winding_eqb (a b : winding_t) : bool :=
  match a, b with
  | Counterclockwise, Counterclockwise => true
  | Clockwise, Clockwise => true
  | Unknown, Unknown => true
  | _, _ => false
  end.

(** One entry of [results]: the dict appended for a ring. *)
Record ring_result : Type := {
  properties : pyval;
  winding : winding_t;
  valid : bool;
  validity_msg : string;
  area : pyval;
  length : pyval
}.

(** The part of shapely the program calls.  It is an external library: the
    embedding takes it as an interface, each call either returning or
    raising. *)
Record shapely : Type := {
  geometry : Type;
  shape : pyval -> result geometry;
  is_valid : geometry -> result bool;
  explain_validity : geometry -> result string;
  geom_area : geometry -> result pyval;
  geom_length : geometry -> result pyval
}.

(** The locals [valid], [validity_msg] and [stats] once the first [try]
    statement of the loop body is over. *)
Record feature_state : Type := {
  st_valid : bool;
  st_msg : string;
  st_area : option pyval;
  st_length : option pyval
}.

(** [stats.get(key, 0)] *)
Definition stats_get (entry : option pyval) : pyval :=
  match entry with
  | Some v => v
  | None => PyInt 0
  end.

(** [v == "literal"] *)
Definition py_eq_str (v : pyval) (lit : string) : bool :=
  match v with
  | PyStr s => String.eqb s lit
  | _ => false
  end.

(** Lines 62-67: the value of [rings] when the ring loop starts.  For a
    MultiPolygon every [p] is consumed by [rings.extend(p)]. *)
Definition extract_rings (geom : pyval) : result pyval :=
  ty <- py_getitem geom "type" ;;
  if py_eq_str ty "Polygon" then py_getitem geom "coordinates"
  else if py_eq_str ty "MultiPolygon" then
    coordinates <- py_getitem geom "coordinates" ;;
    polys <- py_iter coordinates ;;
    parts <- mapM py_iter polys ;;
    Ok (PyList (List.concat parts))
  else Ok (PyList []).

(** The record appended by the [except] branch of the ring loop. *)
Definition unknown_result (props : pyval) : ring_result :=
  {| properties := props;
     winding := Unknown;
     valid := false;
     validity_msg := "Error calculating area";
     area := PyInt 0;
     length := PyInt 0 |}.

(** Lines 70-89: the body of the ring loop, a [try] with a bare [except]. *)
Definition analyze_ring (props : pyval) (st : feature_state) (ring : pyval)
  : ring_result :=
  try_except
    (signed_area <- calculate_signed_area ring ;;
     positive <- py_gt_zero signed_area ;;
     Ok {| properties := props;
           winding := if positive then Counterclockwise else Clockwise;
           valid := st_valid st;
           validity_msg := st_msg st;
           area := stats_get (st_area st);
           length := stats_get (st_length st) |})
    (fun _ => unknown_result props).

Section Analyzer.

Variable sh : shapely.
(** [str(e)] *)
Variable str_of_exn : exn -> string.

Definition failed_state (e : exn) (a : option pyval) : feature_state :=
  {| st_valid := false; st_msg := str_of_exn e; st_area := a; st_length := None |}.

(** Lines 48-60.  An exception leaves the assignments already made in
    place and then overwrites [valid] and [validity_msg]. *)
Definition geometry_check (geom : pyval) : feature_state :=
  match shape sh geom with
  | Raise e => failed_state e None
  | Ok shp =>
      match is_valid sh shp with
      | Raise e => failed_state e None
      | Ok v =>
          match (if v then Ok "Valid" else explain_validity sh shp) with
          | Raise e => failed_state e None
          | Ok msg =>
              match geom_area sh shp with
              | Raise e => failed_state e None
              | Ok a =>
                  match geom_length sh shp with
                  | Raise e => failed_state e (Some a)
                  | Ok l =>
                      {| st_valid := v; st_msg := msg;
                         st_area := Some a; st_length := Some l |}
                  end
              end
          end
      end
  end.

(** One turn of the feature loop: the records it appends. *)
Definition check_feature (feature : pyval) : result (list ring_result) :=
  geom <- py_get feature "geometry" (PyDict []) ;;
  props <- py_get feature "properties" (PyDict []) ;;
  let st := geometry_check geom in
  rings <- extract_rings geom ;;
  items <- py_iter rings ;;
  Ok (map (analyze_ring props st) items).

Definition check_winding_and_geometry (geojson : pyval)
  : result (list ring_result) :=
  fs <- py_get geojson "features" (PyList []) ;;
  features <- py_iter fs ;;
  per_feature <- mapM check_feature features ;;
  Ok (List.concat per_feature).

End Analyzer.

(** ** The rewind decision *)

(** [sum(1 for r in results if r["winding"] == "Clockwise")] *)
Definition clockwise_count (results : list ring_result) : nat :=
  List.length (filter (fun r => winding_eqb (winding r) Clockwise) results).

(** [sum(1 for r in results if not r["valid"])] *)
Definition invalid_count (results : list ring_result) : nat :=
  List.length (filter (fun r => negb (valid r)) results).

(** Line 160, and the same condition on line 131. *)
Definition should_rewind (force_ccw : bool) (results : list ring_result) : bool :=
  (force_ccw && (0 <? clockwise_count results)%nat)
  || (negb force_ccw && (clockwise_count results <? List.length results)%nat).

(** ** String methods used by the batch loop *)

Definition lower_ascii (c : ascii) : ascii :=
  let n := nat_of_ascii c in
  if ((65 <=? n) && (n <=? 90))%nat then ascii_of_nat (n + 32) else c.

(** [s.lower()]; on the 8-bit range only the ASCII capitals can turn into a
    character of [".geojson"], the one use made of the result. *)
Fixpoint lower (s : string) : string :=
  match s with
  | EmptyString => EmptyString
  | String c s' => String (lower_ascii c) (lower s')
  end.

(** [s.endswith(suffix)] *)
Definition endswith (s suffix : string) : bool :=
  let n := String.length s in
  let m := String.length suffix in
  ((m <=? n)%nat && String.eqb (substring (n - m) m s) suffix)%bool.

(** Left-to-right scan of [s.replace(old, new)] for a non-empty [old];
    [skip] counts the characters of a match still to be dropped. *)
Fixpoint replace_scan (old new : string) (skip : nat) (s : string) : string :=
  match s with
  | EmptyString => EmptyString
  | String c s' =>
      match skip with
      | S k => replace_scan old new k s'
      | O =>
          if String.prefix old s
          then new ++ replace_scan old new (String.length old - 1) s'
          else String c (replace_scan old new 0 s')
      end
  end.

Fixpoint intersperse (new s : string) : string :=
  match s with
  | EmptyString => EmptyString
  | String c s' => String c (new ++ intersperse new s')
  end.

(** [s.replace(old, new)]: every non-overlapping occurrence, from the left;
    an empty [old] matches before each character and at the end. *)
Definition replace (s old new : string) : string :=
  match old with
  | EmptyString => new ++ intersperse new s
  | _ => replace_scan old new 0 s
  end.

(** [str(n)] for a count. *)
Definition str_of_nat (n : nat) : string :=
  DecimalString.NilEmpty.string_of_uint (Nat.to_uint n).

(** ** Batch mode *)

Section Batch.

Variable sh : shapely.
Variable str_of_exn : exn -> string.
(** [json.load] on the text of a file, [json.dumps(_, indent=2)], and
    [geojson_rewind.rewind(_, rfc7946=_)]: library calls. *)
Variable json_load : string -> result pyval.
Variable json_dumps : pyval -> result string.
Variable rewind : pyval -> bool -> result pyval.

(** The sidebar choice, ["Counterclockwise"] or ["Clockwise"]. *)
Variable desired_winding : string.

Definition force_ccw : bool := String.eqb desired_winding "Counterclockwise".

(** [corrected_files] and [log]. *)
Definition batch_state : Type := (list (string * string) * list string)%type.

Definition log_line (fname : string) (results : list ring_result) : string :=
  fname ++ ": " ++ str_of_nat (clockwise_count results) ++ " clockwise, "
    ++ str_of_nat (invalid_count results) ++ " invalid, "
    ++ (if should_rewind force_ccw results then "rewound" else "unchanged").

Definition error_line (fname : string) (e : exn) : string :=
  fname ++ ": ERROR - " ++ str_of_exn e.

Definition output_name (fname : string) : string :=
  replace fname ".geojson" ("_" ++ desired_winding ++ ".geojson").

(** Lines 155-167: the [try] statement run on one [.geojson] file. *)
Definition process_file (st : batch_state) (fname content : string) : batch_state :=
  let '(corrected_files, log) := st in
  try_except
    (data <- json_load content ;;
     results <- check_winding_and_geometry sh str_of_exn data ;;
     data' <- (if should_rewind force_ccw results
               then rewind data force_ccw else Ok data) ;;
     out_str <- json_dumps data' ;;
     Ok ((corrected_files ++ [(output_name fname, out_str)])%list,
         (log ++ [log_line fname results])%list))
    (fun e => (corrected_files, (log ++ [error_line fname e])%list)).

(** Lines 150-167 over the extracted files, in the order [os.walk] lists
    them, each with its text. *)
Fixpoint batch_from (st : batch_state) (files : list (string * string)) : batch_state :=
  match files with
  | [] => st
  | (fname, content) :: files' =>
      if endswith (lower fname) ".geojson"
      then batch_from (process_file st fname content) files'
      else batch_from st files'
  end.

Definition batch (files : list (string * string)) : batch_state :=
  batch_from ([], []) files.

End Batch.


(** ** The data model of the specification *)

(** Geometry types the analyzer finds no ring in. *)
Inductive other_kind : Type :=
| Point
| MultiPoint
| LineString
| MultiLineString
| GeometryCollection.

Definition other_name (k : other_kind) : string :=
  match k with
  | Point => "Point"
  | MultiPoint => "MultiPoint"
  | LineString => "LineString"
  | MultiLineString => "MultiLineString"
  | GeometryCollection => "GeometryCollection"
  end.

(** A geometry over rings of type [R]: the tagged variant
    [Polygon | MultiPolygon | other]. *)
Inductive geometry_t (R : Type) : Type :=
| Polygon (rings : list R)
| MultiPolygon (polygons : list (list R))
| Other (kind : other_kind) (body : pyval).

Arguments Other {R} kind body.

Record feature_t (R : Type) : Type := {
  f_geometry : geometry_t R;
  f_properties : pyval
}.

(** Ring extraction in the words of the specification: a Polygon's rings
    as they are, a MultiPolygon's rings concatenated over its polygons. *)
Definition rings_of {R : Type} (g : geometry_t R) : list R :=
  match g with
  | Polygon rings => rings
  | MultiPolygon polygons => List.concat polygons
  | Other _ _ => []
  end.

(** The [json.load] image of a typed document. *)
Definition geometry_py (g : geometry_t pyval) : pyval :=
  match g with
  | Polygon rings =>
      PyDict [("type", PyStr "Polygon"); ("coordinates", PyList rings)]
  | MultiPolygon polygons =>
      PyDict [("type", PyStr "MultiPolygon");
              ("coordinates", PyList (map PyList polygons))]
  | Other kind body =>
      PyDict [("type", PyStr (other_name kind)); ("coordinates", body)]
  end.

Definition feature_py (f : feature_t pyval) : pyval :=
  PyDict [("type", PyStr "Feature");
          ("geometry", geometry_py (f_geometry f));
          ("properties", f_properties f)].

Definition collection_py (fc : list (feature_t pyval)) : pyval :=
  PyDict [("type", PyStr "FeatureCollection");
          ("features", PyList (map feature_py fc))].

(** A ring given as coordinate pairs [(x, y)]. *)
Definition ring_of_pairs (pts : list (pyval * pyval)) : pyval :=
  PyList (map (fun p => PyList [fst p; snd p]) pts).

(** The point [[x, y]] of a pair, as [zip] consumes it. *)
Definition pair_row (p : pyval * pyval) : list pyval := [fst p; snd p].

(** The shoelace formula in the words of the specification,
    [0.5 * sum (x_i * y_{i+1} - x_{i+1} * y_i)] over consecutive pairs, in
    Python's arithmetic. *)
Definition cross (p q : pyval * pyval) : result pyval :=
  a <- py_mul (fst p) (snd q) ;;
  b <- py_mul (fst q) (snd p) ;;
  py_sub a b.

Fixpoint shoelace_sum (acc : pyval) (pts : list (pyval * pyval)) : result pyval :=
  match pts with
  | p :: ((q :: _) as rest) =>
      t <- cross p q ;; acc' <- py_add acc t ;; shoelace_sum acc' rest
  | _ => Ok acc
  end.

Definition shoelace_formula (pts : list (pyval * pyval)) : result pyval :=
  s <- shoelace_sum (PyInt 0) pts ;; py_mul (PyFloat fhalf) s.

(** The analyses of one feature in the words of the specification: one per
    extracted ring, in ring order, validity and stats taken from the
    feature's whole geometry. *)
Definition feature_analysis (sh : shapely) (str_of_exn : exn -> string)
    (f : feature_t pyval) : list ring_result :=
  map (analyze_ring (f_properties f)
         (geometry_check sh str_of_exn (geometry_py (f_geometry f))))
      (rings_of (f_geometry f)).

(** ** The rewind transform *)

Module RewindModel.

Local Open Scope Q_scope.

(** Modelled from the spec: a Ring of the data model, an ordered sequence of
    coordinate pairs [(x, y)], here with exact rational coordinates. *)
Definition ring : Type := list (Q * Q).

Definition cross2 (p q : Q * Q) : Q := fst p * snd q - fst q * snd p.

Fixpoint shoelace (r : ring) : Q :=
  match r with
  | p :: ((q :: _) as rest) => cross2 p q + shoelace rest
  | _ => 0
  end.

(** Modelled from the spec: the signed area of section 4.1,
    [0.5 * sum (x_i*y_{i+1} - x_{i+1}*y_i)] over consecutive pairs. *)
Definition signed_area (r : ring) : Q := (1 # 2) * shoelace r.

(** Modelled from the spec: the classification of section 4.1,
    [signedArea > 0 -> Counterclockwise], [signedArea <= 0 -> Clockwise]. *)
Definition counterclockwise (r : ring) : bool := negb (Qle_bool (signed_area r) 0).

Definition classify (r : ring) : winding_t :=
  if counterclockwise r then Counterclockwise else Clockwise.

(** Modelled from the spec: the glossary's rewind of one ring, "reversing
    ring vertex order to switch its winding classification".  A ring is
    reversed where that is necessary and does it: where the ring lacks the
    wanted classification and the reversed ring has it. *)
Definition wind (want_ccw : bool) (r : ring) : ring :=
  if Bool.eqb (counterclockwise r) want_ccw then r
  else if Bool.eqb (counterclockwise (rev r)) want_ccw then rev r
  else r.

(** Modelled from the spec: one polygon under the convention of section 4.2.
    The first ring is the exterior, wanted counterclockwise when
    [desiredCCW]; the others are holes, wanted the other way round. *)
Definition correct_rings (desired_ccw : bool) (rings : list ring) : list ring :=
  match rings with
  | [] => []
  | ext :: holes => wind desired_ccw ext :: map (wind (negb desired_ccw)) holes
  end.

Definition rewind_geometry (desired_ccw : bool) (g : geometry_t ring)
  : geometry_t ring :=
  match g with
  | Polygon rings => Polygon (correct_rings desired_ccw rings)
  | MultiPolygon polygons => MultiPolygon (map (correct_rings desired_ccw) polygons)
  | Other kind body => Other kind body
  end.

Definition rewind_feature (desired_ccw : bool) (f : feature_t ring) : feature_t ring :=
  {| f_geometry := rewind_geometry desired_ccw (f_geometry f);
     f_properties := f_properties f |}.

(** Modelled from the spec: [rewind] is imported from the package
    [geojson_rewind], whose code is not part of the repository.  Section 4.2
    has it produce a new document in which every ring's vertex order is
    reversed wherever necessary for the desired convention (exterior rings
    counterclockwise and holes clockwise when [desiredCCW], the inverse
    otherwise), Polygon and MultiPolygon handled, other geometries,
    properties and the order of features passed through. *)
Definition rewind (doc : list (feature_t ring)) (desired_ccw : bool)
  : list (feature_t ring) :=
  map (rewind_feature desired_ccw) doc.

(** A property [P want_ccw r] of every ring of a document, each ring taken
    with the orientation the convention wants of it. *)
Definition polygon_all (P : bool -> ring -> Prop) (desired_ccw : bool)
    (rings : list ring) : Prop :=
  match rings with
  | [] => True
  | ext :: holes => P desired_ccw ext /\ Forall (P (negb desired_ccw)) holes
  end.

Definition geometry_all (P : bool -> ring -> Prop) (desired_ccw : bool)
    (g : geometry_t ring) : Prop :=
  match g with
  | Polygon rings => polygon_all P desired_ccw rings
  | MultiPolygon polygons => Forall (polygon_all P desired_ccw) polygons
  | Other _ _ => True
  end.

Definition document_all (P : bool -> ring -> Prop) (desired_ccw : bool)
    (doc : list (feature_t ring)) : Prop :=
  Forall (fun f => geometry_all P desired_ccw (f_geometry f)) doc.

(** A ring already has the wanted classification. *)
Definition follows (want_ccw : bool) (r : ring) : Prop :=
  counterclockwise r = want_ccw.

(** A closed ring of four collinear points: signed area 0. *)
Definition flat_ring : ring := [(0, 0); (1, 1); (2, 2); (0, 0)].

Definition flat_doc : list (feature_t ring) :=
  [ {| f_geometry := Polygon [flat_ring]; f_properties := PyDict [] |} ].

(** The reference square, clockwise and counterclockwise. *)
Definition clockwise_square : ring := [(0, 0); (0, 1); (1, 1); (1, 0); (0, 0)].

Definition counterclockwise_square : ring := [(0, 0); (1, 0); (1, 1); (0, 1); (0, 0)].

Definition square_doc : list (feature_t ring) :=
  [ {| f_geometry := Polygon [clockwise_square]; f_properties := PyDict [] |} ].

(** A document that follows the convention for [desiredCCW]: a square with
    a hole. *)
Definition wound_doc : list (feature_t ring) :=
  [ {| f_geometry := Polygon [counterclockwise_square; clockwise_square];
       f_properties := PyDict [] |} ].

End RewindModel.

(** ** A sample environment *)

(** Stand-ins for the library calls, with which the embedding runs on the
    examples: a shapely that accepts dicts only and reports them valid, the
    exception text, and the file texts used below. *)
Definition sample_shapely : shapely :=
  {| geometry := unit;
     shape := fun g => match g with
                       | PyDict _ => Ok tt
                       | _ => Raise (LibraryError "Unknown geometry type")
                       end;
     is_valid := fun _ => Ok true;
     explain_validity := fun _ => Ok "Valid Geometry";
     geom_area := fun _ => Ok (PyFloat fone);
     geom_length := fun _ => Ok (PyFloat fone) |}.

Definition sample_str_of_exn (e : exn) : string :=
  match e with
  | KeyError key => "'" ++ key ++ "'"
  | LibraryError msg => msg
  | _ => "error"
  end.

(** A document without a [features] key, and the text it is loaded from. *)
Definition no_features_doc : pyval := PyDict [("type", PyStr "FeatureCollection")].

Definition sample_load (content : string) : result pyval :=
  if String.eqb content "{}" then Ok no_features_doc
  else Raise (LibraryError "Expecting value").

Definition sample_dumps (v : pyval) : result string := Ok "{}".

Definition sample_rewind (doc : pyval) (rfc7946 : bool) : result pyval := Ok doc.

(** Documents used in the examples: a feature whose geometry is [null], a
    feature without a [geometry] member, and a square polygon. *)
Definition null_geometry_feature : pyval :=
  PyDict [("type", PyStr "Feature"); ("geometry", PyNone); ("properties", PyDict [])].

Definition no_geometry_feature : pyval :=
  PyDict [("type", PyStr "Feature"); ("properties", PyDict [])].

Definition square_feature : feature_t pyval :=
  {| f_geometry := Polygon [reference_square]; f_properties := PyDict [] |}.

Definition features_doc (features : list pyval) : pyval :=
  PyDict [("type", PyStr "FeatureCollection"); ("features", PyList features)].

(** The reference square as coordinate pairs. *)
Definition square_pairs : list (pyval * pyval) :=
  [(PyInt 0, PyInt 0); (PyInt 1, PyInt 0); (PyInt 1, PyInt 1);
   (PyInt 0, PyInt 1); (PyInt 0, PyInt 0)].

(** The locals of a feature shapely found valid. *)
Definition valid_state : feature_state :=
  {| st_valid := true; st_msg := "Valid";
     st_area := Some (PyFloat fone); st_length := Some (PyFloat fone) |}.

(** The record of a ring of the given winding in a feature with locals
    [st]. *)
Definition wound_result (props : pyval) (st : feature_state) (w : winding_t)
  : ring_result :=
  {| properties := props;
     winding := w;
     valid := st_valid st;
     validity_msg := st_msg st;
     area := stats_get (st_area st);
     length := stats_get (st_length st) |}.

(** The files the batch loop processes. *)
Definition is_geojson (file : string * string) : bool :=
  endswith (lower (fst file)) ".geojson".

(** ** The archive written by batch mode *)

Definition newline : string := String (ascii_of_nat 10) EmptyString.

(** Lines 168-172: the entries written to the output archive, the corrected
    files in order and then the log, its lines joined by a newline. *)
Definition archive_entries (st : batch_state) : list (string * string) :=
  (fst st ++ [("processing_log.txt", String.concat newline (snd st))])%list.

(** Line 174: the text of the success message. *)
Definition success_message (st : batch_state) : string :=
  str_of_nat (List.length (fst st)) ++ " files processed.".

(** A ring given as a list of points, each a list of coordinates. *)
Definition ring_of_rows (rows : list (list pyval)) : pyval :=
  PyList (map PyList rows).

(** The first two coordinates of a point. *)
Definition first_two (row : list pyval) : pyval * pyval :=
  (nth 0 row PyNone, nth 1 row PyNone).

(** No character of the string is a dot. *)
Fixpoint dot_free (s : string) : Prop :=
  match s with
  | EmptyString => True
  | String c s' => c <> "."%char /\ dot_free s'
  end.

(** ** The map preview: [styled_geojson_layer] *)

(** [r["winding"]] as the string the record holds. *)
Definition winding_name (w : winding_t) : string :=
  match w with
  | Counterclockwise => "Counterclockwise"
  | Clockwise => "Clockwise"
  | Unknown => "Unknown"
  end.

(** A layer of the map: the arguments of [folium.GeoJson], the style
    function given by the colour it returns. *)
Record layer : Type := {
  layer_data : pyval;
  layer_name : string;
  layer_color : string;
  layer_tooltip : string;
  layer_popup : string
}.

(** [l[0]] on a list. *)
Definition first_item {A : Type} (l : list A) : result A :=
  match l with
  | a :: _ => Ok a
  | [] => Raise IndexError
  end.

(** The loop body over [enumerate(items)], counting from [idx]. *)
Fixpoint mapM_from {A B : Type} (f : nat -> A -> result B) (idx : nat) (l : list A)
  : result (list B) :=
  match l with
  | [] => Ok []
  | a :: l' => b <- f idx a ;; bs <- mapM_from f (S idx) l' ;; Ok (b :: bs)
  end.

(** The collection of line 96, built around one feature. *)
Definition preview_doc (feature : pyval) : pyval :=
  PyDict [("features", PyList [feature]); ("type", PyStr "FeatureCollection")].

Section Preview.

Variable sh : shapely.
Variable str_of_exn : exn -> string.
(** [json.dumps(_, indent=2)], the format [{_:.2f}] and
    [folium.GeoJson(...).add_to(fmap)] with its popup: library calls. *)
Variable json_dumps : pyval -> result string.
Variable format_2f : pyval -> result string.
Variable add_layer : layer -> result unit.

(** Lines 95-117: one turn of the loop, the layer it adds. *)
Definition feature_layer (idx : nat) (feature : pyval) : result layer :=
  results <- check_winding_and_geometry sh str_of_exn (preview_doc feature) ;;
  ring_info <- first_item results ;;
  a <- format_2f (area ring_info) ;;
  l <- format_2f (length ring_info) ;;
  props <- py_getitem feature "properties" ;;
  dumped <- json_dumps props ;;
  let lyr :=
    {| layer_data := feature;
       layer_name := "Feature " ++ str_of_nat (idx + 1);
       layer_color :=
         if winding_eqb (winding ring_info) Counterclockwise then "green" else "red";
       layer_tooltip := "Winding: " ++ winding_name (winding ring_info);
       layer_popup :=
         "<strong>Winding:</strong> " ++ winding_name (winding ring_info) ++ "<br>"
         ++ "<strong>Area:</strong> " ++ a ++ "<br>"
         ++ "<strong>Length:</strong> " ++ l ++ "<br>"
         ++ "<strong>Validity:</strong> " ++ validity_msg ring_info ++ "<br>"
         ++ "<pre>" ++ dumped ++ "</pre>" |} in
  _ <- add_layer lyr ;;
  Ok lyr.

(** Lines 92-118: the layers of the returned map, in the order they are
    added.  The [results] argument is not used. *)
Definition styled_geojson_layer (geojson : pyval) (results : list ring_result)
  : result (list layer) :=
  fs <- py_getitem geojson "features" ;;
  features <- py_iter fs ;;
  mapM_from feature_layer 0 features.

End Preview.

(** ** Single-file mode *)

(** What a run of the script shows. *)
Inductive ui_event : Type :=
| Info (msg : string)
| MapPreview (layers : list layer)
| FixButton
| Success (msg : string)
| Download (label data file_name : string).

(** The emoji of the messages, held as their UTF-8 bytes. *)
Definition compass : string :=
  String (ascii_of_nat 240) (String (ascii_of_nat 159)
    (String (ascii_of_nat 167) (String (ascii_of_nat 173) EmptyString))).

Definition check_mark : string :=
  String (ascii_of_nat 226) (String (ascii_of_nat 156)
    (String (ascii_of_nat 133) EmptyString)).

Section SingleFile.

Variable sh : shapely.
Variable str_of_exn : exn -> string.
Variable json_load : string -> result pyval.
Variable json_dumps : pyval -> result string.
Variable format_2f : pyval -> result string.
Variable add_layer : layer -> result unit.
Variable rewind : pyval -> bool -> result pyval.
Variable desired_winding : string.

Definition info_message (results : list ring_result) : string :=
  compass ++ " Checked " ++ str_of_nat (List.length results) ++ " rings: "
    ++ str_of_nat (clockwise_count results) ++ " clockwise, "
    ++ str_of_nat (invalid_count results) ++ " invalid.".

(** Lines 131-140: what follows the preview; [pressed] is what [st.button]
    returns. *)
Definition fix_section (geojson_data : pyval) (results : list ring_result)
    (pressed : bool) : list ui_event * option exn :=
  if should_rewind (force_ccw desired_winding) results then
    if pressed then
      match rewind geojson_data (force_ccw desired_winding) with
      | Raise e => ([FixButton], Some e)
      | Ok corrected =>
          match json_dumps corrected with
          | Raise e =>
              ([FixButton; Success (check_mark ++ " Winding order corrected.")], Some e)
          | Ok text =>
              ([FixButton; Success (check_mark ++ " Winding order corrected.");
                Download "Download Corrected GeoJSON" text "corrected.geojson"], None)
          end
      end
    else ([FixButton], None)
  else ([Success (check_mark ++ " All rings already match desired winding.")], None).

(** Lines 122-140 on the text of the uploaded file: the events shown, and
    the exception that ends the run if one escapes. *)
Definition single_file (content : string) (pressed : bool)
  : list ui_event * option exn :=
  match json_load content with
  | Raise e => ([], Some e)
  | Ok geojson_data =>
      match check_winding_and_geometry sh str_of_exn geojson_data with
      | Raise e => ([], Some e)
      | Ok results =>
          match styled_geojson_layer sh str_of_exn json_dumps format_2f add_layer
                  geojson_data results with
          | Raise e => ([Info (info_message results)], Some e)
          | Ok fmap =>
              let '(events, failure) := fix_section geojson_data results pressed in
              ((Info (info_message results) :: MapPreview fmap :: events)%list, failure)
          end
      end
  end.

End SingleFile.

(** Stand-ins for the two library calls of the preview. *)
Definition sample_format (v : pyval) : result string := Ok "0.00".

Definition sample_add_layer (l : layer) : result unit := Ok tt.

(** A document with one polygon whose ring is clockwise, a point feature,
    and a loader that returns a given document. *)
Definition clockwise_doc : pyval :=
  collection_py [ {| f_geometry := Polygon [reversed_square]; f_properties := PyDict [] |} ].

Definition point_feature : feature_t pyval :=
  {| f_geometry := Other Point (PyList [PyInt 2; PyInt 3]); f_properties := PyDict [] |}.

Definition load_as (doc : pyval) (content : string) : result pyval := Ok doc.

(** ** Rings with integer coordinates *)

(** A ring whose coordinates are JSON integers. *)
Definition int_pairs (pts : list (Z * Z)) : list (pyval * pyval) :=
  map (fun p => (PyInt (fst p), PyInt (snd p))) pts.

Definition int_ring (pts : list (Z * Z)) : pyval := ring_of_pairs (int_pairs pts).

(** The sum of the shoelace formula on integers, twice the signed area. *)
Fixpoint zshoelace (pts : list (Z * Z)) : Z :=
  match pts with
  | p :: ((q :: _) as rest) => (fst p * snd q - fst q * snd p) + zshoelace rest
  | _ => 0
  end.

(** ** The documents the analyzer reads to the end *)

(** A value a [for] loop can run over. *)
Definition iterable (v : pyval) : bool :=
  match v with
  | PyList _ | PyStr _ | PyDict _ => true
  | _ => false
  end.

(** A geometry whose rings can be listed: a dict with a [type]; for a
    Polygon, iterable [coordinates]; for a MultiPolygon, iterable
    [coordinates] with iterable members. *)
Definition rings_readable (geom : pyval) : bool :=
  match geom with
  | PyDict gd =>
      match assoc "type" gd with
      | None => false
      | Some ty =>
          if py_eq_str ty "Polygon" then
            match assoc "coordinates" gd with
            | Some c => iterable c
            | None => false
            end
          else if py_eq_str ty "MultiPolygon" then
            match assoc "coordinates" gd with
            | Some c =>
                match py_iter c with
                | Ok polys => forallb iterable polys
                | Raise _ => false
                end
            | None => false
            end
          else true
      end
  | _ => false
  end.

(** A feature the loop body gets through: a dict whose [geometry] member is
    present and readable. *)
Definition feature_readable (feature : pyval) : bool :=
  match feature with
  | PyDict d =>
      match assoc "geometry" d with
      | Some geom => rings_readable geom
      | None => false
      end
  | _ => false
  end.

(** A document the analysis returns on: a dict whose [features] member, if
    present, is iterable and holds readable features. *)
Definition document_readable (geojson : pyval) : bool :=
  match geojson with
  | PyDict d =>
      match assoc "features" d with
      | None => true
      | Some fs =>
          match py_iter fs with
          | Ok features => forallb feature_readable features
          | Raise _ => false
          end
      end
  | _ => false
  end.

(** * Properties *)

(** ** The error monad *)

Lemma bind_ok (A B : Type) (m : result A) (k : A -> result B) (b : B) :
  bind m k = Ok b -> exists a, m = Ok a /\ k a = Ok b.
Proof.
  destruct m as [a | e]; simpl; intros H.
  - exists a. split; [reflexivity | exact H].
  - discriminate H.
Qed.

Lemma mapM_ok_length (A B : Type) (f : A -> result B) (l : list A) (bs : list B) :
  mapM f l = Ok bs -> List.length bs = List.length l.
Proof.
  revert bs. induction l as [| a l IH]; simpl; intros bs H.
  - injection H as <-. reflexivity.
  - apply bind_ok in H. destruct H as (b & _ & H).
    apply bind_ok in H. destruct H as (bs' & Hbs & H).
    injection H as <-. simpl. f_equal. apply IH. exact Hbs.
Qed.

Lemma mapM_total (A B : Type) (f : A -> result B) (g : A -> B) (l : list A) :
  (forall a, In a l -> f a = Ok (g a)) -> mapM f l = Ok (map g l).
Proof.
  induction l as [| a l IH]; simpl; intros H.
  - reflexivity.
  - rewrite (H a (or_introl eq_refl)). simpl.
    rewrite IH by (intros x Hx; apply H; right; exact Hx).
    reflexivity.
Qed.

(** ** The signed area is a float *)

Lemma half_times_is_float (s v : pyval) :
  py_mul (PyFloat fhalf) s = Ok v -> exists f, v = PyFloat f.
Proof.
  unfold py_mul. simpl as_num at 1.
  destruct (as_num s) as [[z | g] |] eqn:Hs.
  - simpl. destruct (float_of_int z) as [y | e]; simpl; intros H.
    + injection H as <-. eexists. reflexivity.
    + discriminate H.
  - simpl. intros H. injection H as <-. eexists. reflexivity.
  - destruct s; simpl; intros H; discriminate H.
Qed.

Lemma calculate_signed_area_float (ring v : pyval) :
  calculate_signed_area ring = Ok v -> exists f, v = PyFloat f.
Proof.
  unfold calculate_signed_area. intros H.
  apply bind_ok in H. destruct H as (cols & _ & H).
  apply bind_ok in H. destruct H as ([x y] & _ & H). simpl in H.
  apply bind_ok in H. destruct H as (n & _ & H).
  apply bind_ok in H. destruct H as (s & _ & H).
  eapply half_times_is_float. exact H.
Qed.

(** What the ring loop appends when the area is computed. *)
Lemma analyze_ring_ok (props : pyval) (st : feature_state) (ring : pyval) (a : spec_float) :
  calculate_signed_area ring = Ok (PyFloat a) ->
  analyze_ring props st ring =
    {| properties := props;
       winding := if SFltb fzero a then Counterclockwise else Clockwise;
       valid := st_valid st;
       validity_msg := st_msg st;
       area := stats_get (st_area st);
       length := stats_get (st_length st) |}.
Proof.
  intros H. unfold analyze_ring. rewrite H. reflexivity.
Qed.

Lemma analyze_ring_raise (props : pyval) (st : feature_state) (ring : pyval) (e : exn) :
  calculate_signed_area ring = Raise e ->
  analyze_ring props st ring = unknown_result props.
Proof.
  intros H. unfold analyze_ring. rewrite H. reflexivity.
Qed.

Lemma SFleb_zero_not_positive (a : spec_float) :
  SFleb a fzero = true -> SFltb fzero a = false.
Proof.
  destruct a as [s | s | | s m e]; try destruct s; simpl; intros H;
    try reflexivity; try discriminate H.
Qed.

Lemma SFeqb_zero_not_positive (a : spec_float) :
  SFeqb a fzero = true -> SFltb fzero a = false.
Proof.
  destruct a as [s | s | | s m e]; try destruct s; simpl; intros H;
    try reflexivity; try discriminate H.
Qed.

(** ** C2 *)

(** C2: with the desired winding Counterclockwise a rewrite is needed exactly
    when the clockwise count is positive; with Clockwise, exactly when the
    clockwise count is below the number of rings; with no ring at all no
    rewrite is needed whatever the desired winding. *)
Theorem should_rewind_decision (results : list ring_result) :
  (should_rewind (force_ccw "Counterclockwise") results = true
     <-> (0 < clockwise_count results)%nat)
  /\ (should_rewind (force_ccw "Clockwise") results = true
     <-> (clockwise_count results < List.length results)%nat)
  /\ (forall desired_winding : string,
        should_rewind (force_ccw desired_winding) [] = false).
Proof.
  unfold should_rewind. repeat split.
  - change (force_ccw "Counterclockwise") with true. simpl.
    rewrite orb_false_r. intros H. apply Nat.ltb_lt. exact H.
  - change (force_ccw "Counterclockwise") with true. simpl.
    rewrite orb_false_r. intros H. apply Nat.ltb_lt. exact H.
  - change (force_ccw "Clockwise") with false. simpl.
    intros H. apply Nat.ltb_lt. exact H.
  - change (force_ccw "Clockwise") with false. simpl.
    intros H. apply Nat.ltb_lt. exact H.
  - intros dw. destruct (force_ccw dw); reflexivity.
Qed.

(** ** C3 *)

(** C3: a ring whose signed area is computed is classified Counterclockwise
    exactly when the area is strictly positive, and Clockwise when it is at
    most zero; an area of exactly zero gives Clockwise, never Unknown. *)
Theorem winding_from_area_sign
    (props : pyval) (st : feature_state) (ring : pyval) (a : spec_float) :
  calculate_signed_area ring = Ok (PyFloat a) ->
  (winding (analyze_ring props st ring) = Counterclockwise <-> SFltb fzero a = true)
  /\ (SFleb a fzero = true -> winding (analyze_ring props st ring) = Clockwise)
  /\ (SFeqb a fzero = true -> winding (analyze_ring props st ring) = Clockwise)
  /\ winding (analyze_ring props st ring) <> Unknown.
Proof.
  intros H. rewrite (@analyze_ring_ok props st ring a H). simpl.
  repeat split.
  - destruct (SFltb fzero a); [reflexivity | discriminate].
  - intros ->. reflexivity.
  - intros Hle. rewrite (SFleb_zero_not_positive _ Hle). reflexivity.
  - intros Heq. rewrite (SFeqb_zero_not_positive _ Heq). reflexivity.
  - destruct (SFltb fzero a); discriminate.
Qed.

(** A single point is a ring of signed area [0.0]: classified Clockwise. *)
Lemma winding_from_area_sign_witness :
  calculate_signed_area (PyList [pt 3 4]) = Ok (PyFloat fzero)
  /\ winding (analyze_ring PyNone
               {| st_valid := true; st_msg := "Valid"; st_area := None; st_length := None |}
               (PyList [pt 3 4])) = Clockwise.
Proof.
  split; [reflexivity |].
  apply (@winding_from_area_sign PyNone
           {| st_valid := true; st_msg := "Valid"; st_area := None; st_length := None |}
           (PyList [pt 3 4]) fzero); reflexivity.
Defined.

(** ** C10 *)

(** C10: the records of one feature's rings all carry the validity, message,
    area and length computed once from the feature's geometry; a ring whose
    own area computation fails gets the Unknown record instead. *)
Theorem feature_values_shared (sh : shapely) (str_of_exn : exn -> string)
    (feature : pyval) (results : list ring_result) :
  check_feature sh str_of_exn feature = Ok results ->
  exists geom props rings,
    py_get feature "geometry" (PyDict []) = Ok geom
    /\ results = map (analyze_ring props (geometry_check sh str_of_exn geom)) rings
    /\ forall ring,
         match calculate_signed_area ring with
         | Ok _ =>
             let r := analyze_ring props (geometry_check sh str_of_exn geom) ring in
             winding r <> Unknown
             /\ valid r = st_valid (geometry_check sh str_of_exn geom)
             /\ validity_msg r = st_msg (geometry_check sh str_of_exn geom)
             /\ area r = stats_get (st_area (geometry_check sh str_of_exn geom))
             /\ length r = stats_get (st_length (geometry_check sh str_of_exn geom))
         | Raise _ =>
             analyze_ring props (geometry_check sh str_of_exn geom) ring
             = unknown_result props
         end.
Proof.
  unfold check_feature. intros H.
  apply bind_ok in H. destruct H as (geom & Hgeom & H).
  apply bind_ok in H. destruct H as (props & _ & H).
  apply bind_ok in H. destruct H as (rings & _ & H).
  apply bind_ok in H. destruct H as (items & _ & H).
  injection H as <-.
  exists geom, props, items. split; [exact Hgeom |]. split; [reflexivity |].
  intros ring. destruct (calculate_signed_area ring) as [v | e] eqn:Harea.
  - destruct (calculate_signed_area_float _ Harea) as (a & ->).
    rewrite (@analyze_ring_ok props _ ring a Harea). simpl.
    repeat split. destruct (SFltb fzero a); discriminate.
  - apply (@analyze_ring_raise props _ ring e Harea).
Qed.

Lemma feature_values_shared_witness :
  exists geom props rings,
    py_get (feature_py square_feature) "geometry" (PyDict []) = Ok geom
    /\ [ {| properties := PyDict []; winding := Counterclockwise; valid := true;
            validity_msg := "Valid"; area := PyFloat fone; length := PyFloat fone |} ]
       = map (analyze_ring props (geometry_check sample_shapely sample_str_of_exn geom)) rings
    /\ forall ring,
         match calculate_signed_area ring with
         | Ok _ =>
             let r := analyze_ring props
                        (geometry_check sample_shapely sample_str_of_exn geom) ring in
             winding r <> Unknown
             /\ valid r = st_valid (geometry_check sample_shapely sample_str_of_exn geom)
             /\ validity_msg r = st_msg (geometry_check sample_shapely sample_str_of_exn geom)
             /\ area r = stats_get (st_area (geometry_check sample_shapely sample_str_of_exn geom))
             /\ length r = stats_get (st_length (geometry_check sample_shapely sample_str_of_exn geom))
         | Raise _ =>
             analyze_ring props (geometry_check sample_shapely sample_str_of_exn geom) ring
             = unknown_result props
         end.
Proof.
  apply (@feature_values_shared sample_shapely sample_str_of_exn
           (feature_py square_feature)).
  reflexivity.
Defined.

(** ** C5 *)

Lemma mapM_iter_lists (ls : list (list pyval)) :
  mapM py_iter (map PyList ls) = Ok ls.
Proof.
  induction ls as [| l ls IH]; simpl.
  - reflexivity.
  - rewrite IH. reflexivity.
Qed.

Lemma extract_rings_py (g : geometry_t pyval) :
  extract_rings (geometry_py g) = Ok (PyList (rings_of g)).
Proof.
  destruct g as [rings | polygons | kind body].
  - reflexivity.
  - unfold extract_rings. simpl. rewrite mapM_iter_lists. reflexivity.
  - destruct kind; reflexivity.
Qed.

Lemma check_feature_py (sh : shapely) (str_of_exn : exn -> string) (f : feature_t pyval) :
  check_feature sh str_of_exn (feature_py f) = Ok (feature_analysis sh str_of_exn f).
Proof.
  unfold check_feature, feature_py. simpl.
  rewrite extract_rings_py. reflexivity.
Qed.

Lemma flat_map_length_map (A B C : Type) (h : A -> B -> C) (rs : A -> list B) (l : list A) :
  List.length (flat_map (fun a => map (h a) (rs a)) l) = List.length (flat_map rs l).
Proof.
  induction l as [| a l IH]; simpl.
  - reflexivity.
  - rewrite !length_app, length_map, IH. reflexivity.
Qed.

Lemma mapM_check_features (sh : shapely) (str_of_exn : exn -> string)
    (fc : list (feature_t pyval)) :
  mapM (check_feature sh str_of_exn) (map feature_py fc)
  = Ok (map (feature_analysis sh str_of_exn) fc).
Proof.
  induction fc as [| f fc IH].
  - reflexivity.
  - cbn [map mapM]. rewrite check_feature_py, IH. reflexivity.
Qed.

(** C5: a Polygon yields its coordinate rings as they are and a MultiPolygon
    the concatenation of the rings of its polygons, in document order; the
    analyzer returns one record per extracted ring, features in order and,
    within a feature, rings in order. *)
Theorem one_analysis_per_ring (sh : shapely) (str_of_exn : exn -> string)
    (fc : list (feature_t pyval)) :
  (forall rings, extract_rings (geometry_py (Polygon rings)) = Ok (PyList rings))
  /\ (forall polygons,
        extract_rings (geometry_py (MultiPolygon polygons))
        = Ok (PyList (List.concat polygons)))
  /\ check_winding_and_geometry sh str_of_exn (collection_py fc)
     = Ok (flat_map (feature_analysis sh str_of_exn) fc)
  /\ List.length (flat_map (feature_analysis sh str_of_exn) fc)
     = List.length (flat_map (fun f => rings_of (f_geometry f)) fc).
Proof.
  split; [intros rings; apply (extract_rings_py (Polygon rings)) |].
  split; [intros polygons; apply (extract_rings_py (MultiPolygon polygons)) |].
  split.
  - unfold check_winding_and_geometry, collection_py.
    cbn [py_get assoc String.eqb Ascii.eqb Bool.eqb py_iter bind].
    rewrite mapM_check_features. cbn [bind].
    rewrite flat_map_concat_map. reflexivity.
  - unfold feature_analysis.
    apply (flat_map_length_map
             (fun f => analyze_ring (f_properties f)
                         (geometry_check sh str_of_exn (geometry_py (f_geometry f))))
             (fun f => rings_of (f_geometry f))).
Qed.

(** ** C1 *)

Lemma fold_min_same (n : nat) (l : list nat) :
  Forall (fun k => k = n) l -> fold_left Nat.min l n = n.
Proof.
  induction 1 as [| k l Hk _ IH]; simpl.
  - reflexivity.
  - subst k. rewrite Nat.min_id. exact IH.
Qed.

Lemma zip_star_pairs (p : pyval * pyval) (pts : list (pyval * pyval)) :
  py_zip_star (ring_of_pairs (p :: pts))
  = Ok [map fst (p :: pts); map snd (p :: pts)].
Proof.
  unfold py_zip_star, ring_of_pairs.
  change (map (fun q : pyval * pyval => PyList [fst q; snd q]) (p :: pts))
    with (map (fun q => PyList (pair_row q)) (p :: pts)).
  rewrite <- (map_map pair_row PyList).
  cbn [py_iter bind]. rewrite mapM_iter_lists. cbn [bind].
  assert (Hlen : zip_len (map pair_row (p :: pts)) = 2%nat).
  { unfold zip_len. cbn [map]. apply (fold_min_same (n := 2)).
    rewrite map_map. apply Forall_forall. intros k Hk.
    apply in_map_iff in Hk. destruct Hk as (q & <- & _). reflexivity. }
  rewrite Hlen. cbn [seq map].
  rewrite !map_map. reflexivity.
Qed.

Lemma area_term_shift (a b : pyval) (x y : list pyval) (i : nat) :
  area_term (a :: x) (b :: y) (S i) = area_term x y i.
Proof. reflexivity. Qed.

Lemma area_term_head (p q : pyval * pyval) (x y : list pyval) :
  area_term (fst p :: fst q :: x) (snd p :: snd q :: y) 0 = cross p q.
Proof. reflexivity. Qed.

(** The generator's items, summed in order, are the cross terms of
    consecutive points. *)
Lemma sum_area_terms (pts : list (pyval * pyval)) (acc : pyval) :
  py_sum_from acc
    (map (area_term (map fst pts) (map snd pts)) (seq 0 (List.length pts - 1)))
  = shoelace_sum acc pts.
Proof.
  revert acc. induction pts as [| p pts IH]; intros acc.
  - reflexivity.
  - destruct pts as [| q rest].
    + reflexivity.
    + replace (List.length (p :: q :: rest) - 1)%nat with (S (List.length rest))
        by (cbn [List.length]; lia).
      replace (List.length (q :: rest) - 1)%nat with (List.length rest) in IH
        by (cbn [List.length]; lia).
      cbn [seq map py_sum_from shoelace_sum].
      rewrite area_term_head.
      destruct (cross p q) as [t | e]; [| reflexivity]. cbn [bind].
      destruct (py_add acc t) as [acc' | e]; [| reflexivity]. cbn [bind].
      rewrite <- seq_shift, map_map.
      exact (IH acc').
Qed.

Lemma signed_area_of_pairs (pts : list (pyval * pyval)) :
  pts <> [] ->
  calculate_signed_area (ring_of_pairs pts) = shoelace_formula pts.
Proof.
  destruct pts as [| p pts]; [intros H; contradiction H; reflexivity | intros _].
  unfold calculate_signed_area. rewrite zip_star_pairs.
  cbn [bind unpack2].
  unfold ring_of_pairs at 1. cbn [py_len bind]. rewrite length_map.
  unfold py_sum. rewrite sum_area_terms. reflexivity.
Qed.

(** C1: on a ring of coordinate pairs the analyzer's signed area is the
    shoelace formula [0.5 * sum (x_i*y_{i+1} - x_{i+1}*y_i)], [i] from [0] to
    [n-2]; the reference square has signed area [1.0] and is classified
    Counterclockwise, the reversed square [-1.0] and Clockwise. *)
Theorem signed_area_is_shoelace :
  (forall pts : list (pyval * pyval),
     pts <> [] ->
     calculate_signed_area (ring_of_pairs pts) = shoelace_formula pts)
  /\ calculate_signed_area reference_square = Ok (PyFloat fone)
  /\ (forall props st,
        winding (analyze_ring props st reference_square) = Counterclockwise)
  /\ calculate_signed_area reversed_square = Ok (PyFloat fminus_one)
  /\ (forall props st,
        winding (analyze_ring props st reversed_square) = Clockwise).
Proof.
  split; [exact signed_area_of_pairs |].
  repeat split; intros; reflexivity.
Qed.

Lemma signed_area_is_shoelace_witness :
  square_pairs <> []
  /\ calculate_signed_area (ring_of_pairs square_pairs) = shoelace_formula square_pairs
  /\ shoelace_formula square_pairs = Ok (PyFloat fone).
Proof.
  split; [discriminate |].
  split; [apply (proj1 signed_area_is_shoelace); discriminate | reflexivity].
Defined.

(** ** C7 *)

Lemma mapM_raise_at (A B : Type) (f : A -> result B) (l1 : list A) (bs : list B)
    (a : A) (l2 : list A) (e : exn) :
  mapM f l1 = Ok bs -> f a = Raise e -> mapM f (l1 ++ a :: l2) = Raise e.
Proof.
  revert bs. induction l1 as [| x l1 IH]; cbn [app mapM]; intros bs H Ha.
  - rewrite Ha. reflexivity.
  - apply bind_ok in H. destruct H as (b & Hb & H).
    apply bind_ok in H. destruct H as (bs' & Hbs & _).
    rewrite Hb. cbn [bind]. rewrite (IH bs' Hbs Ha). reflexivity.
Qed.

(** C7: the analysis raises.  After any features analysed without error, a
    feature whose geometry is [null] makes [check_winding_and_geometry] raise
    [TypeError], and a feature without a [geometry] member makes it raise
    [KeyError('type')], whatever shapely does and whatever features follow:
    no record is returned for the document. *)
Theorem analysis_raises_without_geometry (sh : shapely) (str_of_exn : exn -> string)
    (fc : list (feature_t pyval)) (after : list pyval) :
  check_winding_and_geometry sh str_of_exn
    (features_doc (map feature_py fc ++ null_geometry_feature :: after))
  = Raise TypeError
  /\ check_winding_and_geometry sh str_of_exn
       (features_doc (map feature_py fc ++ no_geometry_feature :: after))
     = Raise (KeyError "type").
Proof.
  split.
  - unfold check_winding_and_geometry, features_doc.
    cbn [py_get assoc String.eqb Ascii.eqb Bool.eqb py_iter bind].
    rewrite (mapM_raise_at (check_feature sh str_of_exn) (map feature_py fc)
               null_geometry_feature after (e := TypeError)
               (mapM_check_features sh str_of_exn fc)); reflexivity.
  - unfold check_winding_and_geometry, features_doc.
    cbn [py_get assoc String.eqb Ascii.eqb Bool.eqb py_iter bind].
    rewrite (mapM_raise_at (check_feature sh str_of_exn) (map feature_py fc)
               no_geometry_feature after (e := KeyError "type")
               (mapM_check_features sh str_of_exn fc)); reflexivity.
Qed.

(** ** C4 *)

(** A ring of one point, a closed ring of three points and a ring of four
    identical points are each recorded Clockwise and valid. *)
Example degenerate_rings_are_clockwise :
  analyze_ring (PyDict []) valid_state (PyList [pt 0 0])
    = wound_result (PyDict []) valid_state Clockwise
  /\ analyze_ring (PyDict []) valid_state (PyList [pt 0 0; pt 1 0; pt 0 0])
    = wound_result (PyDict []) valid_state Clockwise
  /\ analyze_ring (PyDict []) valid_state (PyList [pt 2 5; pt 2 5; pt 2 5; pt 2 5])
    = wound_result (PyDict []) valid_state Clockwise.
Proof.
  repeat split; reflexivity.
Qed.

(** C4 as stated fails: a ring with fewer than two points (hence fewer than
    four, and all its points identical) need not be recorded Unknown. *)
Lemma degenerate_ring_not_unknown :
  ~ (forall props st pts,
       (List.length pts < 2)%nat ->
       analyze_ring props st (PyList pts) = unknown_result props).
Proof.
  intros H.
  specialize (H (PyDict []) valid_state [pt 0 0] (Nat.lt_succ_diag_r 1)).
  discriminate H.
Qed.

Lemma shoelace_sum_same_point (x y : Z) (n : nat) :
  shoelace_sum (PyInt 0) (List.repeat (PyInt x, PyInt y) n) = Ok (PyInt 0).
Proof.
  induction n as [| n IH].
  - reflexivity.
  - destruct n as [| n].
    + reflexivity.
    + change (List.repeat (PyInt x, PyInt y) (S (S n)))
        with ((PyInt x, PyInt y) :: (PyInt x, PyInt y) :: List.repeat (PyInt x, PyInt y) n).
      cbn [shoelace_sum].
      change ((PyInt x, PyInt y) :: List.repeat (PyInt x, PyInt y) n)
        with (List.repeat (PyInt x, PyInt y) (S n)).
      unfold cross. cbn [fst snd py_mul as_num num_binop bind py_sub].
      rewrite Z.sub_diag. cbn [py_add as_num num_binop bind Z.add].
      exact IH.
Qed.

Lemma ring_of_same_point (x y : Z) (n : nat) :
  PyList (List.repeat (pt x y) n) = ring_of_pairs (List.repeat (PyInt x, PyInt y) n).
Proof.
  unfold ring_of_pairs. f_equal.
  induction n as [| n IH]; [reflexivity |].
  cbn [List.repeat map]. rewrite <- IH. reflexivity.
Qed.

Lemma area_same_point (x y : Z) (n : nat) :
  calculate_signed_area (PyList (List.repeat (pt x y) (S n))) = Ok (PyFloat fzero).
Proof.
  rewrite ring_of_same_point, signed_area_of_pairs by discriminate.
  unfold shoelace_formula. rewrite shoelace_sum_same_point. reflexivity.
Qed.

(** C4, amended: a ring on which the area computation raises (the empty
    ring, for one) is recorded Unknown, invalid, "Error calculating area",
    area and length 0, and the rings around it are analysed as usual; a
    degenerate ring on which it does not raise (any single point, any
    repetition of one integer point) has signed area 0.0 and is recorded
    Clockwise with the feature's validity and stats. *)
Theorem failed_ring_is_unknown :
  (forall props st ring e,
     calculate_signed_area ring = Raise e ->
     analyze_ring props st ring = unknown_result props)
  /\ (forall props st, analyze_ring props st (PyList []) = unknown_result props)
  /\ (forall sh str_of_exn props before ring after e,
        calculate_signed_area ring = Raise e ->
        let st := geometry_check sh str_of_exn
                    (geometry_py (Polygon (before ++ ring :: after))) in
        check_feature sh str_of_exn
          (feature_py {| f_geometry := Polygon (before ++ ring :: after);
                         f_properties := props |})
        = Ok (map (analyze_ring props st) before
                ++ unknown_result props :: map (analyze_ring props st) after)%list)
  /\ (forall props st a b,
        analyze_ring props st (PyList [PyList [a; b]]) = wound_result props st Clockwise)
  /\ (forall props st x y n,
        analyze_ring props st (PyList (List.repeat (pt x y) (S n)))
        = wound_result props st Clockwise).
Proof.
  split; [intros props st ring e H; exact (@analyze_ring_raise props st ring e H) |].
  split; [reflexivity |].
  split.
  - intros sh str_of_exn props before ring after e H st.
    rewrite check_feature_py. unfold feature_analysis.
    cbn [f_geometry f_properties rings_of].
    rewrite map_app. cbn [map].
    rewrite (@analyze_ring_raise props _ ring e H). reflexivity.
  - split; [reflexivity |].
    intros props st x y n.
    rewrite (@analyze_ring_ok props st _ fzero (area_same_point x y n)).
    reflexivity.
Qed.

(** A point with three coordinates: [zip] yields three tuples and the
    unpacking raises. *)
Lemma failed_ring_is_unknown_witness :
  calculate_signed_area (PyList [PyList [PyInt 0; PyInt 0; PyInt 7]]) = Raise ValueError
  /\ analyze_ring (PyDict []) valid_state (PyList [PyList [PyInt 0; PyInt 0; PyInt 7]])
     = unknown_result (PyDict []).
Proof.
  split; [reflexivity |].
  apply (proj1 failed_ring_is_unknown (PyDict []) valid_state
           (PyList [PyList [PyInt 0; PyInt 0; PyInt 7]]) ValueError).
  reflexivity.
Defined.

(** ** The batch loop *)

Section BatchFacts.

Variable sh : shapely.
Variable str_of_exn : exn -> string.
Variable json_load : string -> result pyval.
Variable json_dumps : pyval -> result string.
Variable rewind : pyval -> bool -> result pyval.
Variable desired_winding : string.

Local Abbreviation process :=
  (process_file sh str_of_exn json_load json_dumps rewind desired_winding).
Local Abbreviation run := (batch_from sh str_of_exn json_load json_dumps rewind desired_winding).

Lemma process_file_ok (st : batch_state) (fname content : string)
    (data data' : pyval) (results : list ring_result) (out : string) :
  json_load content = Ok data ->
  check_winding_and_geometry sh str_of_exn data = Ok results ->
  (if should_rewind (force_ccw desired_winding) results
   then rewind data (force_ccw desired_winding) else Ok data) = Ok data' ->
  json_dumps data' = Ok out ->
  process st fname content
  = ((fst st ++ [(output_name desired_winding fname, out)])%list,
     (snd st ++ [log_line desired_winding fname results])%list).
Proof.
  intros Hload Hcheck Hrw Hdump. destruct st as [files log].
  unfold process_file. rewrite Hload. cbn [bind]. rewrite Hcheck. cbn [bind].
  rewrite Hrw. cbn [bind]. rewrite Hdump. reflexivity.
Qed.

Lemma process_file_load_error (st : batch_state) (fname content : string) (e : exn) :
  json_load content = Raise e ->
  process st fname content = (fst st, (snd st ++ [error_line str_of_exn fname e])%list).
Proof.
  intros Hload. destruct st as [files log].
  unfold process_file. rewrite Hload. reflexivity.
Qed.

Lemma process_file_check_error (st : batch_state) (fname content : string)
    (data : pyval) (e : exn) :
  json_load content = Ok data ->
  check_winding_and_geometry sh str_of_exn data = Raise e ->
  process st fname content = (fst st, (snd st ++ [error_line str_of_exn fname e])%list).
Proof.
  intros Hload Hcheck. destruct st as [files log].
  unfold process_file. rewrite Hload. cbn [bind]. rewrite Hcheck. reflexivity.
Qed.

(** Each processed file adds exactly one line, of one of the two forms. *)
Lemma process_file_log (st : batch_state) (fname content : string) :
  exists line,
    snd (process st fname content) = (snd st ++ [line])%list
    /\ ((exists results, line = log_line desired_winding fname results)
        \/ (exists e, line = error_line str_of_exn fname e)).
Proof.
  destruct st as [files log]. unfold process_file.
  destruct (json_load content) as [data | e]; cbn [bind try_except snd];
    [| eexists; split; [reflexivity | right; eexists; reflexivity]].
  destruct (check_winding_and_geometry sh str_of_exn data) as [results | e];
    cbn [bind try_except snd];
    [| eexists; split; [reflexivity | right; eexists; reflexivity]].
  destruct (if should_rewind (force_ccw desired_winding) results
            then rewind data (force_ccw desired_winding) else Ok data) as [data' | e];
    cbn [bind try_except snd];
    [| eexists; split; [reflexivity | right; eexists; reflexivity]].
  destruct (json_dumps data') as [out | e]; cbn [bind try_except snd];
    eexists; (split; [reflexivity |]).
  - left. eexists. reflexivity.
  - right. eexists. reflexivity.
Qed.

Lemma batch_from_log_length (files : list (string * string)) (st : batch_state) :
  List.length (snd (run st files))
  = (List.length (snd st) + List.length (filter is_geojson files))%nat.
Proof.
  revert st. induction files as [| [fname content] files IH]; intros st.
  - cbn [batch_from filter List.length]. lia.
  - cbn [batch_from filter]. unfold is_geojson at 1. cbn [fst].
    destruct (endswith (lower fname) ".geojson").
    + rewrite IH. destruct (process_file_log st fname content) as (line & -> & _).
      rewrite length_app. cbn [List.length]. lia.
    + apply IH.
Qed.

End BatchFacts.

(** ** C8 *)

Lemma check_without_features (sh : shapely) (str_of_exn : exn -> string)
    (d : list (string * pyval)) :
  assoc "features" d = None ->
  check_winding_and_geometry sh str_of_exn (PyDict d) = Ok [].
Proof.
  intros H. unfold check_winding_and_geometry. cbn [py_get]. rewrite H. reflexivity.
Qed.

(** C8 as stated fails: a document without a [features] list is not an
    error.  Its analysis returns no ring, and the batch writes it out and
    logs it as unchanged. *)
Lemma missing_features_is_not_an_error :
  (forall e,
     check_winding_and_geometry sample_shapely sample_str_of_exn no_features_doc
     <> Raise e)
  /\ batch sample_shapely sample_str_of_exn sample_load sample_dumps sample_rewind
       "Counterclockwise" [("x.geojson", "{}")]
     = ([("x_Counterclockwise.geojson", "{}")],
        ["x.geojson: 0 clockwise, 0 invalid, unchanged"])
  /\ (forall e,
        batch sample_shapely sample_str_of_exn sample_load sample_dumps sample_rewind
          "Counterclockwise" [("x.geojson", "{}")]
        <> ([], [error_line sample_str_of_exn "x.geojson" e])).
Proof.
  split; [intros e; discriminate |].
  split; [reflexivity |].
  intros e. discriminate.
Qed.

(** C8, amended: a JSON object without a [features] key is analysed as an
    empty document (no ring); batch mode writes it out unchanged and logs
    ["<filename>: 0 clockwise, 0 invalid, unchanged"].  A file whose loading
    or analysis raises is logged as ["<filename>: ERROR - <message>"] and gets
    no output, and every [.geojson] file of the batch gets its log line. *)
Theorem missing_features_is_empty_document
    (sh : shapely) (str_of_exn : exn -> string)
    (json_load : string -> result pyval) (json_dumps : pyval -> result string)
    (rewind : pyval -> bool -> result pyval) (desired_winding : string) :
  (forall d,
     assoc "features" d = None ->
     check_winding_and_geometry sh str_of_exn (PyDict d) = Ok [])
  /\ (forall st fname content d out,
        json_load content = Ok (PyDict d) ->
        assoc "features" d = None ->
        json_dumps (PyDict d) = Ok out ->
        process_file sh str_of_exn json_load json_dumps rewind desired_winding
          st fname content
        = ((fst st ++ [(output_name desired_winding fname, out)])%list,
           (snd st ++ [(fname ++ ": 0 clockwise, 0 invalid, unchanged")%string])%list))
  /\ (forall st fname content e,
        json_load content = Raise e
        \/ (exists data,
              json_load content = Ok data
              /\ check_winding_and_geometry sh str_of_exn data = Raise e) ->
        process_file sh str_of_exn json_load json_dumps rewind desired_winding
          st fname content
        = (fst st, (snd st ++ [(fname ++ ": ERROR - " ++ str_of_exn e)%string])%list))
  /\ (forall files,
        List.length
          (snd (batch sh str_of_exn json_load json_dumps rewind desired_winding files))
        = List.length (filter is_geojson files)).
Proof.
  split; [intros d H; apply check_without_features; exact H |].
  split.
  - intros st fname content d out Hload Hnone Hdump.
    assert (Hrw : (if should_rewind (force_ccw desired_winding) []
                   then rewind (PyDict d) (force_ccw desired_winding)
                   else Ok (PyDict d)) = Ok (PyDict d))
      by (destruct (force_ccw desired_winding); reflexivity).
    rewrite (@process_file_ok sh str_of_exn json_load json_dumps rewind desired_winding
               st fname content (PyDict d) (PyDict d) [] out
               Hload (@check_without_features sh str_of_exn d Hnone) Hrw Hdump).
    unfold log_line. destruct (force_ccw desired_winding); reflexivity.
  - split.
    + intros st fname content e [Hload | (data & Hload & Hcheck)].
      * exact (@process_file_load_error sh str_of_exn json_load json_dumps rewind
                 desired_winding st fname content e Hload).
      * exact (@process_file_check_error sh str_of_exn json_load json_dumps rewind
                 desired_winding st fname content data e Hload Hcheck).
    + intros files. unfold batch. rewrite batch_from_log_length. reflexivity.
Qed.

Lemma missing_features_is_empty_document_witness :
  process_file sample_shapely sample_str_of_exn sample_load sample_dumps sample_rewind
    "Clockwise" ([], []) "x.geojson" "{}"
  = ([("x_Clockwise.geojson", "{}")],
     ["x.geojson: 0 clockwise, 0 invalid, unchanged"]).
Proof.
  apply (proj1 (proj2 (missing_features_is_empty_document
                         sample_shapely sample_str_of_exn sample_load sample_dumps
                         sample_rewind "Clockwise"))
           ([], []) "x.geojson" "{}" [("type", PyStr "FeatureCollection")] "{}");
    reflexivity.
Defined.

(** ** C9 *)

(** C9: a file named with a capital extension passes the loop's filter, but
    its output name is its input name: [replace] finds no [".geojson"] in
    it and the desired-winding label is not inserted. *)
Theorem capital_extension_keeps_name :
  is_geojson ("MAP.GEOJSON", "{}") = true
  /\ output_name "Counterclockwise" "MAP.GEOJSON" = "MAP.GEOJSON"
  /\ batch sample_shapely sample_str_of_exn sample_load sample_dumps sample_rewind
       "Counterclockwise" [("MAP.GEOJSON", "{}")]
     = ([("MAP.GEOJSON", "{}")],
        ["MAP.GEOJSON: 0 clockwise, 0 invalid, unchanged"])
  /\ output_name "Counterclockwise" "map.geojson" = "map_Counterclockwise.geojson".
Proof.
  repeat split; reflexivity.
Qed.

(** ** C6 *)

Module RewindFacts.
Import RewindModel.
Local Open Scope Q_scope.
Local Open Scope list_scope.

Lemma cross2_swap (p q : Q * Q) : cross2 q p == - cross2 p q.
Proof. unfold cross2. ring. Qed.

Lemma shoelace_snoc (l : ring) (q p : Q * Q) :
  shoelace (l ++ [q; p]) == shoelace (l ++ [q]) + cross2 q p.
Proof.
  induction l as [| a l IH].
  - cbn [app shoelace]. ring.
  - destruct l as [| b l].
    + cbn [app shoelace]. ring.
    + change (shoelace ((a :: b :: l) ++ [q; p]))
        with (cross2 a b + shoelace ((b :: l) ++ [q; p])).
      change (shoelace ((a :: b :: l) ++ [q]))
        with (cross2 a b + shoelace ((b :: l) ++ [q])).
      rewrite IH. ring.
Qed.

Lemma shoelace_rev (r : ring) : shoelace (rev r) == - shoelace r.
Proof.
  induction r as [| p r IH].
  - cbn. ring.
  - destruct r as [| q rest].
    + cbn. ring.
    + change (rev (p :: q :: rest)) with ((rev rest ++ [q]) ++ [p]).
      rewrite <- app_assoc. cbn [app].
      rewrite shoelace_snoc.
      change (rev rest ++ [q])%list with (rev (q :: rest)).
      rewrite IH.
      change (shoelace (p :: q :: rest)) with (cross2 p q + shoelace (q :: rest)).
      rewrite cross2_swap. ring.
Qed.

Lemma signed_area_rev (r : ring) : signed_area (rev r) == - signed_area r.
Proof. unfold signed_area. rewrite shoelace_rev. ring. Qed.

Lemma counterclockwise_true (r : ring) : counterclockwise r = true <-> 0 < signed_area r.
Proof.
  unfold counterclockwise. rewrite negb_true_iff.
  split.
  - intros H. apply Qnot_le_lt. intros Hle. apply Qle_bool_iff in Hle. congruence.
  - intros H. destruct (Qle_bool (signed_area r) 0) eqn:E; [| reflexivity].
    apply Qle_bool_iff in E. lra.
Qed.

Lemma counterclockwise_false (r : ring) : counterclockwise r = false <-> signed_area r <= 0.
Proof.
  unfold counterclockwise. rewrite negb_false_iff. apply Qle_bool_iff.
Qed.

Lemma counterclockwise_rev (r : ring) :
  ~ signed_area r == 0 ->
  counterclockwise (rev r) = negb (counterclockwise r).
Proof.
  intros Hnz. destruct (counterclockwise r) eqn:E; cbn [negb].
  - apply counterclockwise_true in E. apply counterclockwise_false.
    rewrite signed_area_rev. lra.
  - apply counterclockwise_false in E. apply counterclockwise_true.
    rewrite signed_area_rev. lra.
Qed.

(** A ring enclosing a non-zero area leaves [wind] with the wanted
    classification. *)
Lemma wind_follows (want_ccw : bool) (r : ring) :
  ~ signed_area r == 0 -> follows want_ccw (wind want_ccw r).
Proof.
  unfold follows, wind. intros Hnz.
  destruct (Bool.eqb (counterclockwise r) want_ccw) eqn:E.
  - apply eqb_prop. exact E.
  - apply eqb_false_iff in E.
    assert (Hrev : counterclockwise (rev r) = want_ccw).
    { rewrite (@counterclockwise_rev r Hnz).
      destruct (counterclockwise r), want_ccw; cbn; congruence. }
    rewrite Hrev, eqb_reflx. exact Hrev.
Qed.

Lemma wind_fixed (want_ccw : bool) (r : ring) :
  follows want_ccw r -> wind want_ccw r = r.
Proof.
  unfold follows, wind. intros ->. rewrite eqb_reflx. reflexivity.
Qed.

(** A ring of signed area 0 is classified Clockwise whichever way it is
    listed: no reversal switches it, and it is left as it is. *)
Lemma wind_flat (want_ccw : bool) (r : ring) :
  signed_area r == 0 -> wind want_ccw r = r.
Proof.
  intros Hz. unfold wind.
  assert (H : counterclockwise r = false) by (apply counterclockwise_false; lra).
  assert (H' : counterclockwise (rev r) = false)
    by (apply counterclockwise_false; rewrite signed_area_rev; lra).
  rewrite H, H'. destruct want_ccw; reflexivity.
Qed.

Lemma wind_idempotent (want_ccw : bool) (r : ring) :
  wind want_ccw (wind want_ccw r) = wind want_ccw r.
Proof.
  destruct (Bool.eqb (counterclockwise r) want_ccw) eqn:E.
  - assert (H : wind want_ccw r = r) by (unfold wind; rewrite E; reflexivity).
    rewrite H. exact H.
  - destruct (Bool.eqb (counterclockwise (rev r)) want_ccw) eqn:E'.
    + assert (H : wind want_ccw r = rev r)
        by (unfold wind; rewrite E, E'; reflexivity).
      rewrite H. apply wind_fixed. apply eqb_prop. exact E'.
    + assert (H : wind want_ccw r = r)
        by (unfold wind; rewrite E, E'; reflexivity).
      rewrite H. exact H.
Qed.

Lemma map_fixed (A : Type) (f : A -> A) (l : list A) :
  Forall (fun a => f a = a) l -> map f l = l.
Proof.
  induction 1 as [| a l Ha _ IH]; cbn [map].
  - reflexivity.
  - rewrite Ha, IH. reflexivity.
Qed.

Lemma map_idempotent (A : Type) (f : A -> A) (l : list A) :
  (forall a, f (f a) = f a) -> map f (map f l) = map f l.
Proof.
  intros Hf. rewrite map_map. apply map_ext. exact Hf.
Qed.

Lemma correct_rings_idempotent (d : bool) (rings : list ring) :
  correct_rings d (correct_rings d rings) = correct_rings d rings.
Proof.
  destruct rings as [| ext holes]; [reflexivity |].
  cbn [correct_rings]. rewrite wind_idempotent. f_equal.
  apply map_idempotent. apply wind_idempotent.
Qed.

Lemma correct_rings_fixed (d : bool) (rings : list ring) :
  polygon_all follows d rings -> correct_rings d rings = rings.
Proof.
  destruct rings as [| ext holes]; [reflexivity |].
  intros [Hext Hholes]. cbn [correct_rings].
  rewrite (wind_fixed Hext). f_equal.
  apply map_fixed.
  eapply Forall_impl; [| exact Hholes].
  intros r Hr. apply wind_fixed. exact Hr.
Qed.

Lemma rewind_geometry_idempotent (d : bool) (g : geometry_t ring) :
  rewind_geometry d (rewind_geometry d g) = rewind_geometry d g.
Proof.
  destruct g as [rings | polygons | kind body]; cbn [rewind_geometry].
  - rewrite correct_rings_idempotent. reflexivity.
  - f_equal. apply map_idempotent. apply correct_rings_idempotent.
  - reflexivity.
Qed.

Lemma rewind_geometry_fixed (d : bool) (g : geometry_t ring) :
  geometry_all follows d g -> rewind_geometry d g = g.
Proof.
  destruct g as [rings | polygons | kind body]; cbn [geometry_all rewind_geometry]; intros H.
  - rewrite (correct_rings_fixed d rings H). reflexivity.
  - f_equal. apply map_fixed.
    eapply Forall_impl; [| exact H].
    intros rings Hr. apply correct_rings_fixed. exact Hr.
  - reflexivity.
Qed.

(** The clockwise square is rewound into the counterclockwise one, and the
    flat ring, which no reversal can switch, is left as it is. *)
Example rewind_square :
  rewind square_doc true
  = [ {| f_geometry := Polygon [counterclockwise_square]; f_properties := PyDict [] |} ]
  /\ rewind flat_doc true = flat_doc.
Proof.
  split; reflexivity.
Qed.

(** C6: with the desired direction fixed the transform is idempotent,
    [rewind (rewind doc d) d = rewind doc d] for every document, and on a
    document whose rings already have the wanted winding it changes
    nothing. *)
Theorem rewind_idempotent (doc : list (feature_t ring)) (d : bool) :
  rewind (rewind doc d) d = rewind doc d
  /\ (document_all follows d doc -> rewind doc d = doc).
Proof.
  unfold document_all, rewind. split.
  - apply map_idempotent. intros f.
    unfold rewind_feature. cbn [f_geometry f_properties].
    rewrite rewind_geometry_idempotent. reflexivity.
  - intros H. apply map_fixed.
    eapply Forall_impl; [| exact H].
    intros [g props] Hf. unfold rewind_feature. cbn [f_geometry f_properties] in *.
    rewrite (rewind_geometry_fixed d g Hf). reflexivity.
Qed.

Lemma wound_doc_follows : document_all follows true wound_doc.
Proof.
  repeat constructor.
Qed.

Lemma rewind_idempotent_witness : rewind wound_doc true = wound_doc.
Proof.
  apply (proj2 (rewind_idempotent wound_doc true)).
  exact wound_doc_follows.
Defined.

End RewindFacts.

(** * Further properties of the batch loop *)

Section BatchOutcomes.

Variable sh : shapely.
Variable str_of_exn : exn -> string.
Variable json_load : string -> result pyval.
Variable json_dumps : pyval -> result string.
Variable rewind : pyval -> bool -> result pyval.
Variable desired_winding : string.

Local Abbreviation process :=
  (process_file sh str_of_exn json_load json_dumps rewind desired_winding).
Local Abbreviation run := (batch_from sh str_of_exn json_load json_dumps rewind desired_winding).

(** What one file adds does not depend on what was collected before it. *)
Lemma process_file_appends (st : batch_state) (fname content : string) :
  process st fname content
  = ((fst st ++ fst (process ([], []) fname content))%list,
     (snd st ++ snd (process ([], []) fname content))%list).
Proof.
  destruct st as [files log]. unfold process_file. cbn [fst snd].
  destruct (json_load content) as [data | e]; cbn [bind try_except fst snd];
    [| rewrite app_nil_r; reflexivity].
  destruct (check_winding_and_geometry sh str_of_exn data) as [results | e];
    cbn [bind try_except fst snd]; [| rewrite app_nil_r; reflexivity].
  destruct (if should_rewind (force_ccw desired_winding) results
            then rewind data (force_ccw desired_winding) else Ok data) as [data' | e];
    cbn [bind try_except fst snd]; [| rewrite app_nil_r; reflexivity].
  destruct (json_dumps data') as [out | e]; cbn [bind try_except fst snd];
    [reflexivity | rewrite app_nil_r; reflexivity].
Qed.

Lemma batch_from_appends (files : list (string * string)) (st : batch_state) :
  run st files
  = ((fst st ++ flat_map (fun f => fst (process ([], []) (fst f) (snd f)))
                  (filter is_geojson files))%list,
     (snd st ++ flat_map (fun f => snd (process ([], []) (fst f) (snd f)))
                  (filter is_geojson files))%list).
Proof.
  revert st. induction files as [| [fname content] files IH]; intros st.
  - cbn [batch_from filter flat_map]. rewrite !app_nil_r. destruct st; reflexivity.
  - cbn [batch_from filter].
    change (endswith (lower fname) ".geojson") with (is_geojson (fname, content)).
    destruct (is_geojson (fname, content)).
    + rewrite IH, process_file_appends. cbn [fst snd flat_map].
      rewrite <- !app_assoc. reflexivity.
    + apply IH.
Qed.

(** The two ways a file ends: an output and a count line, or an error line
    and no output. *)
Lemma process_file_cases (fname content : string) :
  (exists data results data' out,
     json_load content = Ok data
     /\ check_winding_and_geometry sh str_of_exn data = Ok results
     /\ (if should_rewind (force_ccw desired_winding) results
         then rewind data (force_ccw desired_winding) else Ok data) = Ok data'
     /\ json_dumps data' = Ok out
     /\ process ([], []) fname content
        = ([(output_name desired_winding fname, out)],
           [log_line desired_winding fname results]))
  \/ (exists e,
        process ([], []) fname content = ([], [error_line str_of_exn fname e])).
Proof.
  unfold process_file.
  destruct (json_load content) as [data | e] eqn:Hload; cbn [bind try_except];
    [| right; exists e; reflexivity].
  destruct (check_winding_and_geometry sh str_of_exn data) as [results | e] eqn:Hcheck;
    cbn [bind try_except]; [| right; exists e; reflexivity].
  destruct (if should_rewind (force_ccw desired_winding) results
            then rewind data (force_ccw desired_winding) else Ok data)
    as [data' | e] eqn:Hrw; cbn [bind try_except]; [| right; exists e; reflexivity].
  destruct (json_dumps data') as [out | e] eqn:Hdump; cbn [bind try_except];
    [| right; exists e; reflexivity].
  left. exists data, results, data', out. repeat split; try assumption; reflexivity.
Qed.

End BatchOutcomes.

Lemma filter_permutation (A : Type) (f : A -> bool) (l l' : list A) :
  Permutation l l' -> Permutation (filter f l) (filter f l').
Proof.
  induction 1 as [| a l l' _ IH | a b l | l l' l'' _ IH1 _ IH2]; cbn [filter].
  - constructor.
  - destruct (f a); [constructor |]; exact IH.
  - destruct (f a), (f b); try apply Permutation_refl. apply perm_swap.
  - eapply Permutation_trans; eassumption.
Qed.

(** Batch mode treats each file on its own: the corrected files and the log
    are the concatenation, over the [.geojson] files in order, of what each
    file gives when processed alone; the other files of the archive
    contribute nothing. *)
Theorem batch_is_per_file
    (sh : shapely) (str_of_exn : exn -> string)
    (json_load : string -> result pyval) (json_dumps : pyval -> result string)
    (rewind : pyval -> bool -> result pyval) (desired_winding : string)
    (files : list (string * string)) :
  batch sh str_of_exn json_load json_dumps rewind desired_winding files
  = (flat_map
       (fun f => fst (process_file sh str_of_exn json_load json_dumps rewind
                        desired_winding ([], []) (fst f) (snd f)))
       (filter is_geojson files),
     flat_map
       (fun f => snd (process_file sh str_of_exn json_load json_dumps rewind
                        desired_winding ([], []) (fst f) (snd f)))
       (filter is_geojson files)).
Proof.
  unfold batch. rewrite batch_from_appends. reflexivity.
Qed.

(** Listing the files of the archive in another order only reorders the
    result.  What each [.geojson] file contributes, its output paired with
    its log line, is the same in both runs; in each run the corrected files
    and the log lines both follow the order of the files, so that the two are
    permuted the same way. *)
Theorem batch_order_independent
    (sh : shapely) (str_of_exn : exn -> string)
    (json_load : string -> result pyval) (json_dumps : pyval -> result string)
    (rewind : pyval -> bool -> result pyval) (desired_winding : string)
    (files files' : list (string * string)) :
  Permutation files files' ->
  Permutation
    (map (fun f => process_file sh str_of_exn json_load json_dumps rewind
                     desired_winding ([], []) (fst f) (snd f))
         (filter is_geojson files))
    (map (fun f => process_file sh str_of_exn json_load json_dumps rewind
                     desired_winding ([], []) (fst f) (snd f))
         (filter is_geojson files'))
  /\ batch sh str_of_exn json_load json_dumps rewind desired_winding files
     = (flat_map fst
          (map (fun f => process_file sh str_of_exn json_load json_dumps rewind
                           desired_winding ([], []) (fst f) (snd f))
               (filter is_geojson files)),
        flat_map snd
          (map (fun f => process_file sh str_of_exn json_load json_dumps rewind
                           desired_winding ([], []) (fst f) (snd f))
               (filter is_geojson files)))
  /\ batch sh str_of_exn json_load json_dumps rewind desired_winding files'
     = (flat_map fst
          (map (fun f => process_file sh str_of_exn json_load json_dumps rewind
                           desired_winding ([], []) (fst f) (snd f))
               (filter is_geojson files')),
        flat_map snd
          (map (fun f => process_file sh str_of_exn json_load json_dumps rewind
                           desired_winding ([], []) (fst f) (snd f))
               (filter is_geojson files')))
  /\ Permutation
       (fst (batch sh str_of_exn json_load json_dumps rewind desired_winding files))
       (fst (batch sh str_of_exn json_load json_dumps rewind desired_winding files'))
  /\ Permutation
       (snd (batch sh str_of_exn json_load json_dumps rewind desired_winding files))
       (snd (batch sh str_of_exn json_load json_dumps rewind desired_winding files')).
Proof.
  intros H.
  pose proof (filter_permutation is_geojson H) as Hf.
  split; [apply Permutation_map; exact Hf |].
  unfold batch. rewrite !batch_from_appends. cbn [fst snd app].
  rewrite !flat_map_concat_map, !map_map, <- !flat_map_concat_map.
  split; [reflexivity |]. split; [reflexivity |].
  split; apply Permutation_flat_map; exact Hf.
Qed.

Lemma batch_order_independent_witness :
  Permutation
    (map (fun f => process_file sample_shapely sample_str_of_exn sample_load sample_dumps
                     sample_rewind "Clockwise" ([], []) (fst f) (snd f))
         (filter is_geojson [("a.geojson", "{}"); ("b.geojson", "[")]))
    (map (fun f => process_file sample_shapely sample_str_of_exn sample_load sample_dumps
                     sample_rewind "Clockwise" ([], []) (fst f) (snd f))
         (filter is_geojson [("b.geojson", "["); ("a.geojson", "{}")])).
Proof.
  apply (proj1 (@batch_order_independent sample_shapely sample_str_of_exn sample_load
                  sample_dumps sample_rewind "Clockwise"
                  [("a.geojson", "{}"); ("b.geojson", "[")]
                  [("b.geojson", "["); ("a.geojson", "{}")]
                  (perm_swap _ _ _))).
Defined.

(** A processed file ends in exactly one of two ways: one output, named by
    [output_name] and holding the dumped document, with a count line in the
    log; or no output and an ERROR line.  A failure of the loading, of the
    analysis, of the rewind or of the dump all end the second way. *)
Theorem file_gives_output_or_error
    (sh : shapely) (str_of_exn : exn -> string)
    (json_load : string -> result pyval) (json_dumps : pyval -> result string)
    (rewind : pyval -> bool -> result pyval) (desired_winding : string)
    (fname content : string) :
  (exists data results data' out,
     json_load content = Ok data
     /\ check_winding_and_geometry sh str_of_exn data = Ok results
     /\ (if should_rewind (force_ccw desired_winding) results
         then rewind data (force_ccw desired_winding) else Ok data) = Ok data'
     /\ json_dumps data' = Ok out
     /\ process_file sh str_of_exn json_load json_dumps rewind desired_winding
          ([], []) fname content
        = ([(output_name desired_winding fname, out)],
           [log_line desired_winding fname results]))
  \/ (exists e,
        (json_load content = Raise e
         \/ (exists data,
               json_load content = Ok data
               /\ (check_winding_and_geometry sh str_of_exn data = Raise e
                   \/ exists results,
                        check_winding_and_geometry sh str_of_exn data = Ok results
                        /\ ((should_rewind (force_ccw desired_winding) results = true
                             /\ rewind data (force_ccw desired_winding) = Raise e)
                            \/ exists data',
                                 (if should_rewind (force_ccw desired_winding) results
                                  then rewind data (force_ccw desired_winding)
                                  else Ok data) = Ok data'
                                 /\ json_dumps data' = Raise e))))
        /\ process_file sh str_of_exn json_load json_dumps rewind desired_winding
             ([], []) fname content
           = ([], [error_line str_of_exn fname e])).
Proof.
  unfold process_file.
  destruct (json_load content) as [data | e] eqn:Hload; cbn [bind try_except];
    [| right; exists e; split; [left; reflexivity | reflexivity]].
  destruct (check_winding_and_geometry sh str_of_exn data) as [results | e] eqn:Hcheck;
    cbn [bind try_except].
  2: { right. exists e. split; [| reflexivity].
       right. exists data. split; [reflexivity |]. left. exact Hcheck. }
  destruct (if should_rewind (force_ccw desired_winding) results
            then rewind data (force_ccw desired_winding) else Ok data)
    as [data' | e] eqn:Hrw; cbn [bind try_except].
  - destruct (json_dumps data') as [out | e] eqn:Hdump; cbn [bind try_except].
    + left. exists data, results, data', out.
      repeat split; first [assumption | reflexivity].
    + right. exists e. split; [| reflexivity].
      right. exists data. split; [reflexivity |]. right. exists results.
      split; [exact Hcheck |]. right. exists data'. split; assumption.
  - right. exists e. split; [| reflexivity].
    right. exists data. split; [reflexivity |]. right. exists results.
    split; [exact Hcheck |]. left.
    destruct (should_rewind (force_ccw desired_winding) results);
      [split; [reflexivity | exact Hrw] | discriminate Hrw].
Qed.

(** When the analysis asks for no rewrite the rewind library is not called:
    the file is written as the loaded document, dumped, whatever [rewind]
    would do, and its log line ends in "unchanged". *)
Theorem unneeded_rewind_is_not_called
    (sh : shapely) (str_of_exn : exn -> string)
    (json_load : string -> result pyval) (json_dumps : pyval -> result string)
    (rewind : pyval -> bool -> result pyval) (desired_winding : string)
    (st : batch_state) (fname content : string)
    (data : pyval) (results : list ring_result) (out : string) :
  json_load content = Ok data ->
  check_winding_and_geometry sh str_of_exn data = Ok results ->
  should_rewind (force_ccw desired_winding) results = false ->
  json_dumps data = Ok out ->
  process_file sh str_of_exn json_load json_dumps rewind desired_winding st fname content
  = ((fst st ++ [(output_name desired_winding fname, out)])%list,
     (snd st ++ [(fname ++ ": " ++ str_of_nat (clockwise_count results) ++ " clockwise, "
                   ++ str_of_nat (invalid_count results) ++ " invalid, unchanged")%string])%list).
Proof.
  intros Hload Hcheck Hno Hdump.
  assert (Hrw : (if should_rewind (force_ccw desired_winding) results
                 then rewind data (force_ccw desired_winding) else Ok data) = Ok data)
    by (rewrite Hno; reflexivity).
  rewrite (@process_file_ok sh str_of_exn json_load json_dumps rewind desired_winding
             st fname content data data results out Hload Hcheck Hrw Hdump).
  unfold log_line. rewrite Hno. reflexivity.
Qed.

Lemma unneeded_rewind_is_not_called_witness :
  process_file sample_shapely sample_str_of_exn sample_load sample_dumps
    (fun _ _ => Raise (LibraryError "unsupported"))
    "Counterclockwise" ([], []) "x.geojson" "{}"
  = ([("x_Counterclockwise.geojson", "{}")],
     ["x.geojson: 0 clockwise, 0 invalid, unchanged"]).
Proof.
  apply (@unneeded_rewind_is_not_called sample_shapely sample_str_of_exn sample_load
           sample_dumps (fun _ _ => Raise (LibraryError "unsupported"))
           "Counterclockwise" ([], []) "x.geojson" "{}" no_features_doc [] "{}");
    reflexivity.
Defined.

(** With no [.geojson] file in the upload the archive holds an empty log and
    nothing else, and the message counts 0 files. *)
Theorem batch_without_geojson
    (sh : shapely) (str_of_exn : exn -> string)
    (json_load : string -> result pyval) (json_dumps : pyval -> result string)
    (rewind : pyval -> bool -> result pyval) (desired_winding : string)
    (files : list (string * string)) :
  filter is_geojson files = [] ->
  archive_entries
    (batch sh str_of_exn json_load json_dumps rewind desired_winding files)
  = [("processing_log.txt", "")]
  /\ success_message
       (batch sh str_of_exn json_load json_dumps rewind desired_winding files)
     = "0 files processed.".
Proof.
  intros H. unfold batch. rewrite batch_from_appends, H. split; reflexivity.
Qed.

Lemma batch_without_geojson_witness :
  archive_entries
    (batch sample_shapely sample_str_of_exn sample_load sample_dumps sample_rewind
       "Clockwise" [("readme.txt", "{}"); ("map.json", "{}")])
  = [("processing_log.txt", "")]
  /\ success_message
       (batch sample_shapely sample_str_of_exn sample_load sample_dumps sample_rewind
          "Clockwise" [("readme.txt", "{}"); ("map.json", "{}")])
     = "0 files processed.".
Proof.
  apply (@batch_without_geojson sample_shapely sample_str_of_exn sample_load
           sample_dumps sample_rewind "Clockwise").
  reflexivity.
Defined.

(** * File names *)

Section FileNames.

Local Open Scope nat_scope.

Lemma append_empty_r (s : string) : s ++ "" = s.
Proof. induction s as [| c s IH]; cbn; [reflexivity | rewrite IH; reflexivity]. Qed.

Lemma append_assoc (a b c : string) : (a ++ b) ++ c = a ++ (b ++ c).
Proof. induction a as [| x a IH]; cbn; [reflexivity | rewrite IH; reflexivity]. Qed.

Lemma length_append (a b : string) :
  String.length (a ++ b) = (String.length a + String.length b)%nat.
Proof. induction a as [| x a IH]; cbn; [reflexivity | rewrite IH; reflexivity]. Qed.

Lemma replace_scan_dot_free (new base : string) :
  dot_free base ->
  replace_scan ".geojson" new 0 (base ++ ".geojson") = base ++ new.
Proof.
  induction base as [| c base IH]; intros H.
  - cbn [append]. cbn. rewrite append_empty_r. reflexivity.
  - destruct H as [Hc Hbase].
    cbn [append replace_scan String.prefix].
    destruct (ascii_dec "." c) as [E | _]; [symmetry in E; contradiction |].
    rewrite (IH Hbase). reflexivity.
Qed.

(** A file named [base.geojson], with no dot in [base], is written as
    [base_<desired winding>.geojson]. *)
Theorem output_name_inserts_label (desired_winding base : string) :
  dot_free base ->
  output_name desired_winding (base ++ ".geojson")
  = base ++ "_" ++ desired_winding ++ ".geojson".
Proof.
  intros H. unfold output_name, replace. apply replace_scan_dot_free. exact H.
Qed.

Lemma output_name_inserts_label_witness :
  output_name "Clockwise" "parcels.geojson" = "parcels_Clockwise.geojson".
Proof.
  apply (@output_name_inserts_label "Clockwise" "parcels").
  cbn. repeat split; discriminate.
Defined.

Lemma lower_append (a b : string) : lower (a ++ b) = lower a ++ lower b.
Proof. induction a as [| x a IH]; cbn; [reflexivity | rewrite IH; reflexivity]. Qed.

Lemma length_lower (s : string) : String.length (lower s) = String.length s.
Proof. induction s as [| c s IH]; cbn; [reflexivity | rewrite IH; reflexivity]. Qed.

Lemma substring_lower (n m : nat) (s : string) :
  substring n m (lower s) = lower (substring n m s).
Proof.
  revert n m. induction s as [| c s IH]; intros n m.
  - destruct n, m; reflexivity.
  - destruct n as [| n].
    + destruct m as [| m]; [reflexivity |]. cbn. rewrite IH. reflexivity.
    + cbn. apply IH.
Qed.

Lemma substring_suffix (a b : string) :
  substring (String.length a) (String.length b) (a ++ b) = b.
Proof.
  induction a as [| x a IH]; cbn.
  - induction b as [| y b IHb]; cbn; [reflexivity | rewrite IHb; reflexivity].
  - exact IH.
Qed.

Lemma substring_split (k : nat) (s : string) :
  (k <= String.length s)%nat ->
  s = substring 0 k s ++ substring k (String.length s - k) s.
Proof.
  revert k. induction s as [| c s IH]; intros k Hk.
  - destruct k; [reflexivity | cbn in Hk; lia].
  - destruct k as [| k].
    + cbn [substring append]. cbn [String.length Nat.sub].
      f_equal. specialize (IH 0%nat (Nat.le_0_l _)).
      cbn [append] in IH. rewrite Nat.sub_0_r in IH.
      destruct s; cbn in *; [reflexivity | exact IH].
    + cbn [substring append String.length Nat.sub]. f_equal.
      apply IH. cbn in Hk. lia.
Qed.

(** The batch loop processes exactly the files whose name ends in
    [.geojson] written in any mix of capitals and small letters. *)
Theorem geojson_extension_any_case (name content : string) :
  is_geojson (name, content) = true
  <-> exists base ext, name = base ++ ext /\ lower ext = ".geojson".
Proof.
  unfold is_geojson, endswith. cbn [fst]. rewrite length_lower.
  split.
  - intros H. apply andb_true_iff in H. destruct H as [Hlen Heq].
    apply Nat.leb_le in Hlen. apply String.eqb_eq in Heq.
    change (String.length ".geojson") with 8%nat in *.
    exists (substring 0 (String.length name - 8) name),
           (substring (String.length name - 8) 8 name).
    split.
    + rewrite (@substring_split (String.length name - 8) name) at 1 by lia.
      f_equal. f_equal. lia.
    + rewrite <- substring_lower. exact Heq.
  - intros (base & ext & -> & Hext).
    assert (Hl : String.length ext = 8%nat).
    { rewrite <- (length_lower ext), Hext. reflexivity. }
    rewrite length_append, Hl. change (String.length ".geojson") with 8%nat.
    apply andb_true_iff. split; [apply Nat.leb_le; lia |].
    apply String.eqb_eq.
    replace (String.length base + 8 - 8)%nat with (String.length (lower base))
      by (rewrite length_lower; lia).
    rewrite lower_append, <- Hext.
    replace 8%nat with (String.length (lower ext)) by (rewrite Hext; reflexivity).
    apply substring_suffix.
Qed.

End FileNames.

(** * Further properties of the analyzer *)

Lemma zip_star_rows (rows : list (list pyval)) :
  py_zip_star (ring_of_rows rows)
  = Ok (map (fun j => map (fun r => nth j r PyNone) rows) (seq 0 (zip_len rows))).
Proof.
  unfold py_zip_star, ring_of_rows. cbn [py_iter bind].
  rewrite mapM_iter_lists. reflexivity.
Qed.

Lemma unpack2_wrong_length (A : Type) (l : list A) :
  List.length l <> 2%nat -> unpack2 l = Raise ValueError.
Proof.
  destruct l as [| a [| b [| c l]]]; cbn; intros H; try reflexivity.
  contradiction H. reflexivity.
Qed.

Lemma zip_len_uniform (k : nat) (r : list pyval) (rows : list (list pyval)) :
  Forall (fun row => List.length row = k) (r :: rows) -> zip_len (r :: rows) = k.
Proof.
  intros H. inversion H as [| x l Hr Hrows]; subst.
  unfold zip_len. apply fold_min_same.
  apply Forall_forall. intros n Hn. apply in_map_iff in Hn.
  destruct Hn as (row & <- & Hrow).
  rewrite Forall_forall in Hrows. rewrite (Hrows row Hrow). reflexivity.
Qed.

(** A ring (a list of points, each a list of coordinates) whose shortest
    point does not have exactly two coordinates makes the unpacking of
    [zip] raise [ValueError]: the ring is recorded Unknown.  So is every ring
    whose points all carry [k] coordinates, [k] other than 2, such as
    positions with an altitude. *)
Theorem ring_needs_two_coordinates :
  (forall rows,
     zip_len rows <> 2%nat ->
     calculate_signed_area (ring_of_rows rows) = Raise ValueError
     /\ forall props st,
          analyze_ring props st (ring_of_rows rows) = unknown_result props)
  /\ (forall k rows,
        k <> 2%nat ->
        Forall (fun row => List.length row = k) rows ->
        forall props st,
          analyze_ring props st (ring_of_rows rows) = unknown_result props).
Proof.
  assert (Hraise : forall rows,
             zip_len rows <> 2%nat ->
             calculate_signed_area (ring_of_rows rows) = Raise ValueError).
  { intros rows H. unfold calculate_signed_area. rewrite zip_star_rows. cbn [bind].
    rewrite unpack2_wrong_length; [reflexivity |].
    rewrite length_map, length_seq. exact H. }
  split.
  - intros rows H. split; [apply Hraise; exact H |].
    intros props st.
    exact (@analyze_ring_raise props st _ ValueError (Hraise rows H)).
  - intros k rows Hk Hall props st.
    apply (@analyze_ring_raise props st _ ValueError). apply Hraise.
    destruct rows as [| r rows].
    + cbn. discriminate.
    + rewrite (zip_len_uniform Hall). exact Hk.
Qed.

Lemma ring_needs_two_coordinates_witness :
  analyze_ring (PyDict []) valid_state
    (ring_of_rows [[PyInt 0; PyInt 0; PyInt 9]; [PyInt 1; PyInt 0; PyInt 9];
                   [PyInt 1; PyInt 1; PyInt 9]; [PyInt 0; PyInt 0; PyInt 9]])
  = unknown_result (PyDict []).
Proof.
  apply (proj2 ring_needs_two_coordinates 3%nat); [discriminate |].
  repeat constructor.
Defined.

Lemma columns_of_rows (rows : list (list pyval)) :
  map (fun j => map (fun r => nth j r PyNone) rows) (seq 0 2)
  = [map fst (map first_two rows); map snd (map first_two rows)].
Proof.
  cbn [seq map]. rewrite !map_map. reflexivity.
Qed.

(** When the shortest point of a ring has exactly two coordinates, [zip]
    drops the further coordinates of the longer points: the signed area is
    the shoelace formula on the first two coordinates of every point. *)
Theorem extra_coordinates_are_ignored (rows : list (list pyval)) :
  zip_len rows = 2%nat ->
  calculate_signed_area (ring_of_rows rows) = shoelace_formula (map first_two rows).
Proof.
  intros H. unfold calculate_signed_area. rewrite zip_star_rows, H. cbn [bind].
  rewrite columns_of_rows. cbn [unpack2 bind].
  unfold ring_of_rows at 1. cbn [py_len bind].
  rewrite length_map, <- (length_map first_two rows).
  unfold py_sum. rewrite sum_area_terms. reflexivity.
Qed.

Lemma extra_coordinates_are_ignored_witness :
  calculate_signed_area
    (ring_of_rows [[PyInt 0; PyInt 0; PyInt 50]; [PyInt 1; PyInt 0];
                   [PyInt 1; PyInt 1; PyInt 70]; [PyInt 0; PyInt 1]; [PyInt 0; PyInt 0]])
  = shoelace_formula square_pairs.
Proof.
  apply (@extra_coordinates_are_ignored
           [[PyInt 0; PyInt 0; PyInt 50]; [PyInt 1; PyInt 0];
            [PyInt 1; PyInt 1; PyInt 70]; [PyInt 0; PyInt 1]; [PyInt 0; PyInt 0]]).
  reflexivity.
Defined.

Lemma mapM_app (A B : Type) (f : A -> result B) (l1 l2 : list A) :
  mapM f (l1 ++ l2)
  = (bs1 <- mapM f l1 ;; bs2 <- mapM f l2 ;; Ok (bs1 ++ bs2)%list).
Proof.
  induction l1 as [| a l1 IH]; cbn [app mapM bind].
  - destruct (mapM f l2); reflexivity.
  - destruct (f a) as [b | e]; cbn [bind]; [| reflexivity].
    rewrite IH. destruct (mapM f l1) as [bs1 | e]; cbn [bind]; [| reflexivity].
    destruct (mapM f l2); reflexivity.
Qed.

Lemma mapM_Forall (A B : Type) (f : A -> result B) (Q : B -> Prop)
    (l : list A) (bs : list B) :
  (forall a b, f a = Ok b -> Q b) -> mapM f l = Ok bs -> Forall Q bs.
Proof.
  intros Hf. revert bs. induction l as [| a l IH]; cbn [mapM]; intros bs H.
  - injection H as <-. constructor.
  - apply bind_ok in H. destruct H as (b & Hb & H).
    apply bind_ok in H. destruct H as (bs' & Hbs & H).
    injection H as <-. constructor; [exact (Hf a b Hb) | exact (IH bs' Hbs)].
Qed.

Lemma Forall_concat_all (A : Type) (P : A -> Prop) (ls : list (list A)) :
  Forall (Forall P) ls -> Forall P (List.concat ls).
Proof.
  induction 1 as [| l ls Hl _ IH]; cbn [List.concat].
  - constructor.
  - apply Forall_app. split; assumption.
Qed.

(** The analysis of a collection is the analysis of its features one after
    the other: the records of [fs1 ++ fs2] are those of [fs1] followed by
    those of [fs2], and the first exception met is the one raised. *)
Theorem analysis_of_concatenation (sh : shapely) (str_of_exn : exn -> string)
    (fs1 fs2 : list pyval) :
  check_winding_and_geometry sh str_of_exn (features_doc (fs1 ++ fs2))
  = (r1 <- check_winding_and_geometry sh str_of_exn (features_doc fs1) ;;
     r2 <- check_winding_and_geometry sh str_of_exn (features_doc fs2) ;;
     Ok (r1 ++ r2)%list).
Proof.
  unfold check_winding_and_geometry, features_doc.
  cbn [py_get assoc String.eqb Ascii.eqb Bool.eqb py_iter bind].
  rewrite mapM_app.
  destruct (mapM (check_feature sh str_of_exn) fs1) as [rs1 | e]; cbn [bind];
    [| reflexivity].
  destruct (mapM (check_feature sh str_of_exn) fs2) as [rs2 | e]; cbn [bind];
    [| reflexivity].
  rewrite concat_app. reflexivity.
Qed.

Lemma geometry_check_valid (sh : shapely) (str_of_exn : exn -> string) (geom : pyval) :
  st_valid (geometry_check sh str_of_exn geom) = true ->
  st_msg (geometry_check sh str_of_exn geom) = "Valid"
  /\ exists a l,
       st_area (geometry_check sh str_of_exn geom) = Some a
       /\ st_length (geometry_check sh str_of_exn geom) = Some l.
Proof.
  unfold geometry_check.
  destruct (shape sh geom) as [shp | e]; [| discriminate].
  destruct (is_valid sh shp) as [v | e]; [| discriminate].
  destruct v.
  - destruct (geom_area sh shp) as [a | e]; [| discriminate].
    destruct (geom_length sh shp) as [l | e]; [| discriminate].
    intros _. split; [reflexivity |]. exists a, l. split; reflexivity.
  - destruct (explain_validity sh shp) as [msg | e]; [| discriminate].
    destruct (geom_area sh shp) as [a | e]; [| discriminate].
    destruct (geom_length sh shp) as [l | e]; discriminate.
Qed.

Lemma check_feature_consistent (sh : shapely) (str_of_exn : exn -> string)
    (feature : pyval) (results : list ring_result) :
  check_feature sh str_of_exn feature = Ok results ->
  Forall (fun r =>
            (valid r = true -> validity_msg r = "Valid" /\ winding r <> Unknown)
            /\ (winding r = Unknown -> r = unknown_result (properties r)))
         results.
Proof.
  unfold check_feature. intros H.
  apply bind_ok in H. destruct H as (geom & _ & H).
  apply bind_ok in H. destruct H as (props & _ & H).
  apply bind_ok in H. destruct H as (rings & _ & H).
  apply bind_ok in H. destruct H as (items & _ & H).
  injection H as <-.
  apply Forall_forall. intros r Hr. apply in_map_iff in Hr.
  destruct Hr as (ring & <- & _).
  destruct (calculate_signed_area ring) as [v | e] eqn:Harea.
  - destruct (calculate_signed_area_float _ Harea) as (a & ->).
    rewrite (@analyze_ring_ok props _ ring a Harea). cbn [valid validity_msg winding].
    split.
    + intros Hv. split; [apply (geometry_check_valid sh str_of_exn geom Hv) |].
      destruct (SFltb fzero a); discriminate.
    + destruct (SFltb fzero a); discriminate.
  - rewrite (@analyze_ring_raise props _ ring e Harea).
    split; [discriminate | reflexivity].
Qed.

(** In every analysis, a record reported valid has the message "Valid" and a
    known winding, and a record of unknown winding is the fixed error record:
    invalid, "Error calculating area", area and length 0. *)
Theorem records_are_consistent (sh : shapely) (str_of_exn : exn -> string)
    (geojson : pyval) (results : list ring_result) :
  check_winding_and_geometry sh str_of_exn geojson = Ok results ->
  Forall (fun r =>
            (valid r = true -> validity_msg r = "Valid" /\ winding r <> Unknown)
            /\ (winding r = Unknown -> r = unknown_result (properties r)))
         results.
Proof.
  unfold check_winding_and_geometry. intros H.
  apply bind_ok in H. destruct H as (fs & _ & H).
  apply bind_ok in H. destruct H as (features & _ & H).
  apply bind_ok in H. destruct H as (per_feature & Hmap & H).
  injection H as <-.
  apply Forall_concat_all.
  eapply mapM_Forall; [| exact Hmap].
  intros feature rs Hrs. exact (check_feature_consistent sh str_of_exn feature Hrs).
Qed.

Lemma records_are_consistent_witness :
  Forall (fun r =>
            (valid r = true -> validity_msg r = "Valid" /\ winding r <> Unknown)
            /\ (winding r = Unknown -> r = unknown_result (properties r)))
         [ wound_result (PyDict []) valid_state Counterclockwise;
           unknown_result (PyDict []) ].
Proof.
  apply (@records_are_consistent sample_shapely sample_str_of_exn
           (collection_py
              [ {| f_geometry := Polygon [reference_square; PyList []];
                   f_properties := PyDict [] |} ])).
  reflexivity.
Defined.

(** When shapely cannot build the shape of a geometry, every ring of the
    feature is recorded invalid with area and length 0, and with the text of
    the exception as message when its own area is computed; its winding is
    the one it has under any other validity verdict. *)
Theorem unreadable_geometry_marks_rings_invalid
    (sh : shapely) (str_of_exn : exn -> string) (geom : pyval) (e : exn) :
  shape sh geom = Raise e ->
  forall props ring,
    valid (analyze_ring props (geometry_check sh str_of_exn geom) ring) = false
    /\ area (analyze_ring props (geometry_check sh str_of_exn geom) ring) = PyInt 0
    /\ length (analyze_ring props (geometry_check sh str_of_exn geom) ring) = PyInt 0
    /\ (winding (analyze_ring props (geometry_check sh str_of_exn geom) ring) <> Unknown ->
        validity_msg (analyze_ring props (geometry_check sh str_of_exn geom) ring)
        = str_of_exn e)
    /\ (forall st,
          winding (analyze_ring props (geometry_check sh str_of_exn geom) ring)
          = winding (analyze_ring props st ring)).
Proof.
  intros Hshape props ring.
  assert (Hst : geometry_check sh str_of_exn geom = failed_state str_of_exn e None)
    by (unfold geometry_check; rewrite Hshape; reflexivity).
  rewrite Hst.
  destruct (calculate_signed_area ring) as [v | x] eqn:Harea.
  - destruct (calculate_signed_area_float _ Harea) as (a & ->).
    rewrite (@analyze_ring_ok props _ ring a Harea).
    repeat split.
    intros st. rewrite (@analyze_ring_ok props st ring a Harea). reflexivity.
  - rewrite (@analyze_ring_raise props _ ring x Harea).
    repeat split.
    + intros H. contradiction H. reflexivity.
    + intros st. rewrite (@analyze_ring_raise props st ring x Harea). reflexivity.
Qed.

Lemma unreadable_geometry_marks_rings_invalid_witness :
  valid (analyze_ring (PyDict [])
           (geometry_check sample_shapely sample_str_of_exn PyNone) reference_square)
  = false.
Proof.
  apply (@unreadable_geometry_marks_rings_invalid sample_shapely sample_str_of_exn
           PyNone (LibraryError "Unknown geometry type") eq_refl
           (PyDict []) reference_square).
Defined.

Lemma filter_all (A : Type) (f : A -> bool) (l : list A) :
  List.length (filter f l) = List.length l <-> Forall (fun a => f a = true) l.
Proof.
  induction l as [| a l IH]; cbn [filter List.length].
  - split; [constructor | reflexivity].
  - pose proof (filter_length_le f l) as Hle.
    destruct (f a) eqn:E; cbn [List.length]; split; intros H.
    + constructor; [exact E | apply IH; lia].
    + inversion H; subst. f_equal. apply IH. assumption.
    + lia.
    + inversion H; subst. congruence.
Qed.

Lemma filter_none (A : Type) (f : A -> bool) (l : list A) :
  List.length (filter f l) = 0%nat <-> Forall (fun a => f a = false) l.
Proof.
  induction l as [| a l IH]; cbn [filter List.length].
  - split; [constructor | reflexivity].
  - destruct (f a) eqn:E; cbn [List.length]; split; intros H.
    + discriminate H.
    + inversion H; subst. congruence.
    + constructor; [exact E | apply IH; exact H].
    + inversion H; subst. apply IH. assumption.
Qed.

Lemma winding_eqb_clockwise (r : ring_result) :
  winding_eqb (winding r) Clockwise = true <-> winding r = Clockwise.
Proof.
  destruct (winding r); cbn; split; intros H; try reflexivity; discriminate H.
Qed.

(** With the desired winding Counterclockwise no rewrite is asked for exactly
    when no ring is Clockwise, rings of unknown winding included; with
    Clockwise, exactly when every ring is Clockwise, so that a ring of
    unknown winding always asks for one. *)
Theorem no_rewind_iff_rings_match (results : list ring_result) :
  (should_rewind true results = false
     <-> Forall (fun r => winding r <> Clockwise) results)
  /\ (should_rewind false results = false
      <-> Forall (fun r => winding r = Clockwise) results)
  /\ (Exists (fun r => winding r = Unknown) results ->
      should_rewind false results = true).
Proof.
  assert (Hccw : should_rewind true results = false
                 <-> Forall (fun r => winding r <> Clockwise) results).
  { unfold should_rewind, clockwise_count. cbn [andb negb orb].
    rewrite orb_false_r, Nat.ltb_ge, Nat.le_0_r, filter_none.
    split; intros H; (eapply Forall_impl; [| exact H]); intros r Hr; cbn beta in *.
    - intros Hc. apply winding_eqb_clockwise in Hc. congruence.
    - destruct (winding_eqb (winding r) Clockwise) eqn:E; [| reflexivity].
      apply winding_eqb_clockwise in E. contradiction. }
  assert (Hcw : should_rewind false results = false
                <-> Forall (fun r => winding r = Clockwise) results).
  { unfold should_rewind, clockwise_count. cbn [andb negb orb].
    rewrite Nat.ltb_ge.
    pose proof (filter_length_le (fun r => winding_eqb (winding r) Clockwise) results) as Hle.
    split; intros H.
    - assert (Heq : List.length (filter (fun r => winding_eqb (winding r) Clockwise) results)
                    = List.length results) by lia.
      apply filter_all in Heq. eapply Forall_impl; [| exact Heq].
      intros r Hr. apply winding_eqb_clockwise. exact Hr.
    - assert (Hall : Forall (fun r => winding_eqb (winding r) Clockwise = true) results).
      { eapply Forall_impl; [| exact H]. intros r Hr. apply winding_eqb_clockwise. exact Hr. }
      apply filter_all in Hall. lia. }
  split; [exact Hccw |]. split; [exact Hcw |].
  intros Hex. apply not_false_iff_true. intros E.
  apply Hcw in E. apply Exists_exists in Hex. destruct Hex as (r & Hin & Hr).
  rewrite Forall_forall in E. specialize (E r Hin). congruence.
Qed.

Lemma no_rewind_iff_rings_match_witness :
  should_rewind false
    [wound_result (PyDict []) valid_state Clockwise; unknown_result (PyDict [])]
  = true.
Proof.
  apply (proj2 (proj2 (no_rewind_iff_rings_match
                         [wound_result (PyDict []) valid_state Clockwise;
                          unknown_result (PyDict [])]))).
  apply Exists_cons_tl, Exists_cons_hd. reflexivity.
Defined.

(** * The map preview and single-file mode *)

Lemma check_preview_doc (sh : shapely) (str_of_exn : exn -> string) (feature : pyval) :
  check_winding_and_geometry sh str_of_exn (preview_doc feature)
  = check_feature sh str_of_exn feature.
Proof.
  unfold check_winding_and_geometry, preview_doc.
  cbn [py_get assoc String.eqb Ascii.eqb Bool.eqb py_iter bind mapM].
  destruct (check_feature sh str_of_exn feature) as [rs | e]; cbn [bind List.concat].
  - rewrite app_nil_r. reflexivity.
  - reflexivity.
Qed.

Lemma check_collection_py (sh : shapely) (str_of_exn : exn -> string)
    (fc : list (feature_t pyval)) :
  check_winding_and_geometry sh str_of_exn (collection_py fc)
  = Ok (flat_map (feature_analysis sh str_of_exn) fc).
Proof.
  unfold check_winding_and_geometry, collection_py.
  cbn [py_get assoc String.eqb Ascii.eqb Bool.eqb py_iter bind].
  rewrite mapM_check_features. cbn [bind].
  rewrite flat_map_concat_map. reflexivity.
Qed.

Lemma mapM_from_raise_at (A B : Type) (f : nat -> A -> result B)
    (l1 : list A) (bs : list B) (a : A) (l2 : list A) (e : exn) (idx : nat) :
  mapM_from f idx l1 = Ok bs ->
  f (idx + List.length l1)%nat a = Raise e ->
  mapM_from f idx (l1 ++ a :: l2) = Raise e.
Proof.
  revert bs idx. induction l1 as [| x l1 IH]; cbn [app mapM_from List.length]; intros bs idx H Ha.
  - rewrite Nat.add_0_r in Ha. rewrite Ha. reflexivity.
  - apply bind_ok in H. destruct H as (b & Hb & H).
    apply bind_ok in H. destruct H as (bs' & Hbs & _).
    rewrite Hb. cbn [bind].
    rewrite (IH bs' (S idx) Hbs); [reflexivity |].
    rewrite <- Ha. f_equal. lia.
Qed.

Lemma mapM_from_ok (A B : Type) (f : nat -> A -> result B) (l : list A)
    (bs : list B) (idx : nat) :
  mapM_from f idx l = Ok bs ->
  Forall2 (fun ia b => f (fst ia) (snd ia) = Ok b)
          (combine (seq idx (List.length l)) l) bs.
Proof.
  revert bs idx. induction l as [| a l IH]; cbn [mapM_from List.length seq combine]; intros bs idx H.
  - injection H as <-. constructor.
  - apply bind_ok in H. destruct H as (b & Hb & H).
    apply bind_ok in H. destruct H as (bs' & Hbs & H).
    injection H as <-. constructor; [exact Hb | exact (IH bs' (S idx) Hbs)].
Qed.

Section PreviewFacts.

Variable sh : shapely.
Variable str_of_exn : exn -> string.
Variable json_dumps : pyval -> result string.
Variable format_2f : pyval -> result string.
Variable add_layer : layer -> result unit.

Local Abbreviation layer_of := (feature_layer sh str_of_exn json_dumps format_2f add_layer).

Lemma feature_layer_ringless (idx : nat) (f : feature_t pyval) :
  rings_of (f_geometry f) = [] ->
  layer_of idx (feature_py f) = Raise IndexError.
Proof.
  intros H. unfold feature_layer.
  rewrite check_preview_doc, check_feature_py. unfold feature_analysis.
  rewrite H. reflexivity.
Qed.

Lemma feature_layer_ok (idx : nat) (feature : pyval) (lyr : layer) :
  layer_of idx feature = Ok lyr ->
  exists ring_info rest,
    check_feature sh str_of_exn feature = Ok (ring_info :: rest)
    /\ layer_data lyr = feature
    /\ layer_name lyr = "Feature " ++ str_of_nat (idx + 1)
    /\ layer_color lyr
       = (if winding_eqb (winding ring_info) Counterclockwise then "green" else "red")
    /\ layer_tooltip lyr = "Winding: " ++ winding_name (winding ring_info).
Proof.
  unfold feature_layer. rewrite check_preview_doc. intros H.
  apply bind_ok in H. destruct H as (results & Hres & H).
  apply bind_ok in H. destruct H as (ring_info & Hfirst & H).
  apply bind_ok in H. destruct H as (a & _ & H).
  apply bind_ok in H. destruct H as (l & _ & H).
  apply bind_ok in H. destruct H as (props & _ & H).
  apply bind_ok in H. destruct H as (dumped & _ & H).
  apply bind_ok in H. destruct H as (u & _ & H).
  injection H as <-.
  destruct results as [| r rest]; [discriminate Hfirst |].
  injection Hfirst as ->.
  exists ring_info, rest. repeat split. exact Hres.
Qed.

End PreviewFacts.

Lemma layers_follow_features
    (sh : shapely) (str_of_exn : exn -> string) (json_dumps : pyval -> result string)
    (format_2f : pyval -> result string) (add_layer : layer -> result unit)
    (l : list pyval) (layers : list layer) (idx : nat) :
  mapM_from (feature_layer sh str_of_exn json_dumps format_2f add_layer) idx l = Ok layers ->
  map layer_data layers = l
  /\ map layer_name layers
     = map (fun i => "Feature " ++ str_of_nat (i + 1)) (seq idx (List.length l)).
Proof.
  revert layers idx. induction l as [| a l IH]; cbn [mapM_from List.length seq map];
    intros layers idx H.
  - injection H as <-. split; reflexivity.
  - apply bind_ok in H. destruct H as (b & Hb & H).
    apply bind_ok in H. destruct H as (bs & Hbs & H).
    injection H as <-. cbn [map].
    destruct (feature_layer_ok sh str_of_exn json_dumps format_2f add_layer idx a Hb)
      as (ri & rest & _ & Hdata & Hname & _).
    destruct (IH bs (S idx) Hbs) as [IHd IHn].
    rewrite Hdata, Hname, IHd, IHn. split; reflexivity.
Qed.

(** The preview adds one layer per feature, in feature order, each holding
    its feature and named "Feature 1", "Feature 2", ... *)
Theorem one_layer_per_feature
    (sh : shapely) (str_of_exn : exn -> string) (json_dumps : pyval -> result string)
    (format_2f : pyval -> result string) (add_layer : layer -> result unit)
    (geojson : pyval) (results : list ring_result) (layers : list layer) :
  styled_geojson_layer sh str_of_exn json_dumps format_2f add_layer geojson results
  = Ok layers ->
  exists fs features,
    py_getitem geojson "features" = Ok fs
    /\ py_iter fs = Ok features
    /\ map layer_data layers = features
    /\ map layer_name layers
       = map (fun i => "Feature " ++ str_of_nat (i + 1)) (seq 0 (List.length features)).
Proof.
  unfold styled_geojson_layer. intros H.
  apply bind_ok in H. destruct H as (fs & Hfs & H).
  apply bind_ok in H. destruct H as (features & Hit & H).
  exists fs, features. split; [exact Hfs |]. split; [exact Hit |].
  exact (layers_follow_features sh str_of_exn json_dumps format_2f add_layer
           features 0 H).
Qed.

Lemma one_layer_per_feature_witness :
  exists fs features,
    py_getitem (collection_py [square_feature; square_feature]) "features" = Ok fs
    /\ py_iter fs = Ok features
    /\ map layer_data
         [ {| layer_data := feature_py square_feature; layer_name := "Feature 1";
              layer_color := "green"; layer_tooltip := "Winding: Counterclockwise";
              layer_popup := "<strong>Winding:</strong> Counterclockwise<br><strong>Area:</strong> 0.00<br><strong>Length:</strong> 0.00<br><strong>Validity:</strong> Valid<br><pre>{}</pre>" |};
           {| layer_data := feature_py square_feature; layer_name := "Feature 2";
              layer_color := "green"; layer_tooltip := "Winding: Counterclockwise";
              layer_popup := "<strong>Winding:</strong> Counterclockwise<br><strong>Area:</strong> 0.00<br><strong>Length:</strong> 0.00<br><strong>Validity:</strong> Valid<br><pre>{}</pre>" |} ]
       = features
    /\ map layer_name
         [ {| layer_data := feature_py square_feature; layer_name := "Feature 1";
              layer_color := "green"; layer_tooltip := "Winding: Counterclockwise";
              layer_popup := "<strong>Winding:</strong> Counterclockwise<br><strong>Area:</strong> 0.00<br><strong>Length:</strong> 0.00<br><strong>Validity:</strong> Valid<br><pre>{}</pre>" |};
           {| layer_data := feature_py square_feature; layer_name := "Feature 2";
              layer_color := "green"; layer_tooltip := "Winding: Counterclockwise";
              layer_popup := "<strong>Winding:</strong> Counterclockwise<br><strong>Area:</strong> 0.00<br><strong>Length:</strong> 0.00<br><strong>Validity:</strong> Valid<br><pre>{}</pre>" |} ]
       = map (fun i => "Feature " ++ str_of_nat (i + 1)) (seq 0 (List.length features)).
Proof.
  apply (@one_layer_per_feature sample_shapely sample_str_of_exn sample_dumps
           sample_format sample_add_layer
           (collection_py [square_feature; square_feature]) []).
  reflexivity.
Defined.

(** A feature is drawn green exactly when the signed area of its first ring
    is computed and positive, and red otherwise, a failed first ring
    included; its other rings are not looked at. *)
Theorem layer_colour_from_first_ring
    (sh : shapely) (str_of_exn : exn -> string) (json_dumps : pyval -> result string)
    (format_2f : pyval -> result string) (add_layer : layer -> result unit)
    (idx : nat) (f : feature_t pyval) (ring : pyval) (others : list pyval) (lyr : layer) :
  rings_of (f_geometry f) = ring :: others ->
  feature_layer sh str_of_exn json_dumps format_2f add_layer idx (feature_py f) = Ok lyr ->
  (layer_color lyr = "green"
     <-> exists a, calculate_signed_area ring = Ok (PyFloat a) /\ SFltb fzero a = true)
  /\ (layer_color lyr = "green" \/ layer_color lyr = "red")
  /\ layer_tooltip lyr
     = "Winding: " ++ winding_name (winding (analyze_ring (f_properties f) valid_state ring)).
Proof.
  intros Hrings H.
  destruct (feature_layer_ok sh str_of_exn json_dumps format_2f add_layer idx
              (feature_py f) H)
    as (ri & rest & Hcheck & _ & _ & Hcolor & Htip).
  rewrite check_feature_py in Hcheck. unfold feature_analysis in Hcheck.
  rewrite Hrings in Hcheck. cbn [map] in Hcheck. injection Hcheck as Hri _.
  rewrite Hcolor, Htip, <- Hri.
  destruct (calculate_signed_area ring) as [v | e] eqn:Harea.
  - destruct (calculate_signed_area_float _ Harea) as (a & ->).
    rewrite !(@analyze_ring_ok (f_properties f) _ ring a Harea). cbn [winding].
    destruct (SFltb fzero a) eqn:Hpos; cbn [winding_eqb].
    + split; [| split; [left; reflexivity | reflexivity]].
      split; [| reflexivity].
      intros _. exists a. split; [reflexivity | exact Hpos].
    + split; [| split; [right; reflexivity | reflexivity]].
      split; [discriminate |].
      intros (b & Hb & Hlt). injection Hb as <-. congruence.
  - rewrite !(@analyze_ring_raise (f_properties f) _ ring e Harea). cbn [winding winding_eqb].
    split; [| split; [right; reflexivity | reflexivity]].
    split; [discriminate | intros (b & Hb & _); discriminate Hb].
Qed.

Lemma layer_colour_from_first_ring_witness :
  layer_color
    {| layer_data := feature_py {| f_geometry := Polygon [reversed_square; reference_square];
                                   f_properties := PyDict [] |};
       layer_name := "Feature 1";
       layer_color := "red";
       layer_tooltip := "Winding: Clockwise";
       layer_popup := "<strong>Winding:</strong> Clockwise<br><strong>Area:</strong> 0.00<br><strong>Length:</strong> 0.00<br><strong>Validity:</strong> Valid<br><pre>{}</pre>" |}
  = "green" \/
  layer_color
    {| layer_data := feature_py {| f_geometry := Polygon [reversed_square; reference_square];
                                   f_properties := PyDict [] |};
       layer_name := "Feature 1";
       layer_color := "red";
       layer_tooltip := "Winding: Clockwise";
       layer_popup := "<strong>Winding:</strong> Clockwise<br><strong>Area:</strong> 0.00<br><strong>Length:</strong> 0.00<br><strong>Validity:</strong> Valid<br><pre>{}</pre>" |}
  = "red".
Proof.
  apply (@layer_colour_from_first_ring sample_shapely sample_str_of_exn sample_dumps
           sample_format sample_add_layer 0
           {| f_geometry := Polygon [reversed_square; reference_square];
              f_properties := PyDict [] |}
           reversed_square [reference_square]); reflexivity.
Defined.

(** A document without a [features] key is analysed as empty, but the
    preview subscripts [geojson["features"]]: single-file mode shows the
    count message for 0 rings and then ends with [KeyError('features')]. *)
Theorem single_mode_needs_features_key
    (sh : shapely) (str_of_exn : exn -> string)
    (json_load : string -> result pyval) (json_dumps : pyval -> result string)
    (format_2f : pyval -> result string) (add_layer : layer -> result unit)
    (rewind : pyval -> bool -> result pyval) (desired_winding : string)
    (content : string) (pressed : bool) (d : list (string * pyval)) :
  json_load content = Ok (PyDict d) ->
  assoc "features" d = None ->
  single_file sh str_of_exn json_load json_dumps format_2f add_layer rewind
    desired_winding content pressed
  = ([Info (compass ++ " Checked 0 rings: 0 clockwise, 0 invalid.")],
     Some (KeyError "features")).
Proof.
  intros Hload Hnone. unfold single_file. rewrite Hload.
  rewrite (@check_without_features sh str_of_exn d Hnone).
  unfold styled_geojson_layer. cbn [py_getitem]. rewrite Hnone. reflexivity.
Qed.

Lemma single_mode_needs_features_key_witness :
  single_file sample_shapely sample_str_of_exn sample_load sample_dumps sample_format
    sample_add_layer sample_rewind "Counterclockwise" "{}" true
  = ([Info (compass ++ " Checked 0 rings: 0 clockwise, 0 invalid.")],
     Some (KeyError "features")).
Proof.
  apply (@single_mode_needs_features_key sample_shapely sample_str_of_exn sample_load
           sample_dumps sample_format sample_add_layer sample_rewind "Counterclockwise"
           "{}" true [("type", PyStr "FeatureCollection")]); reflexivity.
Defined.

(** The preview takes the first record of each feature: on a feature with
    no ring (a Point, a LineString, a Polygon without coordinates) it raises
    [IndexError] once the features before it are drawn, and single-file mode
    ends there, after the count message and before any fix is offered. *)
Theorem preview_fails_on_ringless_feature
    (sh : shapely) (str_of_exn : exn -> string) (json_dumps : pyval -> result string)
    (format_2f : pyval -> result string) (add_layer : layer -> result unit)
    (before : list pyval) (layers : list layer) (f : feature_t pyval)
    (after : list pyval) :
  rings_of (f_geometry f) = [] ->
  mapM_from (feature_layer sh str_of_exn json_dumps format_2f add_layer) 0 before
  = Ok layers ->
  (forall results,
     styled_geojson_layer sh str_of_exn json_dumps format_2f add_layer
       (features_doc (before ++ feature_py f :: after)) results
     = Raise IndexError)
  /\ (forall json_load rewind desired_winding content pressed results,
        json_load content = Ok (features_doc (before ++ feature_py f :: after)) ->
        check_winding_and_geometry sh str_of_exn
          (features_doc (before ++ feature_py f :: after)) = Ok results ->
        single_file sh str_of_exn json_load json_dumps format_2f add_layer rewind
          desired_winding content pressed
        = ([Info (info_message results)], Some IndexError)).
Proof.
  intros Hrings Hbefore.
  assert (Hstyled : forall results,
             styled_geojson_layer sh str_of_exn json_dumps format_2f add_layer
               (features_doc (before ++ feature_py f :: after)) results
             = Raise IndexError).
  { intros results. unfold styled_geojson_layer, features_doc.
    cbn [py_getitem assoc String.eqb Ascii.eqb Bool.eqb py_iter bind].
    apply (mapM_from_raise_at _ before (feature_py f) after 0 Hbefore).
    apply feature_layer_ringless. exact Hrings. }
  split; [exact Hstyled |].
  intros json_load rewind desired_winding content pressed results Hload Hcheck.
  unfold single_file. rewrite Hload, Hcheck, Hstyled. reflexivity.
Qed.

Lemma preview_fails_on_ringless_feature_witness :
  styled_geojson_layer sample_shapely sample_str_of_exn sample_dumps sample_format
    sample_add_layer
    (features_doc ([feature_py square_feature] ++ feature_py point_feature :: [])) []
  = Raise IndexError.
Proof.
  apply (proj1 (@preview_fails_on_ringless_feature sample_shapely sample_str_of_exn
                  sample_dumps sample_format sample_add_layer
                  [feature_py square_feature] _ point_feature []
                  eq_refl eq_refl)).
Defined.

(** Single-file mode offers a download only after the button is pressed on a
    document that needs a rewrite, and what it offers is the dump of the
    rewound document, named corrected.geojson. *)
Theorem download_is_rewound_document
    (sh : shapely) (str_of_exn : exn -> string)
    (json_load : string -> result pyval) (json_dumps : pyval -> result string)
    (format_2f : pyval -> result string) (add_layer : layer -> result unit)
    (rewind : pyval -> bool -> result pyval) (desired_winding : string)
    (content : string) (pressed : bool) (label text file_name : string) :
  In (Download label text file_name)
     (fst (single_file sh str_of_exn json_load json_dumps format_2f add_layer rewind
             desired_winding content pressed)) ->
  pressed = true
  /\ file_name = "corrected.geojson"
  /\ exists data results corrected,
       json_load content = Ok data
       /\ check_winding_and_geometry sh str_of_exn data = Ok results
       /\ should_rewind (force_ccw desired_winding) results = true
       /\ rewind data (force_ccw desired_winding) = Ok corrected
       /\ json_dumps corrected = Ok text.
Proof.
  unfold single_file.
  destruct (json_load content) as [data | e] eqn:Hload; [| intros []].
  destruct (check_winding_and_geometry sh str_of_exn data) as [results | e] eqn:Hcheck;
    [| intros []].
  destruct (styled_geojson_layer sh str_of_exn json_dumps format_2f add_layer data results)
    as [fmap | e]; [| cbn; intros [H | []]; discriminate H].
  unfold fix_section.
  destruct (should_rewind (force_ccw desired_winding) results) eqn:Hneed;
    [| cbn; intros [H | [H | [H | []]]]; discriminate H].
  destruct pressed; [| cbn; intros [H | [H | [H | []]]]; discriminate H].
  destruct (rewind data (force_ccw desired_winding)) as [corrected | e] eqn:Hrw;
    [| cbn; intros [H | [H | [H | []]]]; discriminate H].
  destruct (json_dumps corrected) as [out | e] eqn:Hdump;
    [| cbn; intros [H | [H | [H | [H | []]]]]; discriminate H].
  cbn. intros [H | [H | [H | [H | [H | []]]]]]; try discriminate H.
  injection H as _ <- <-.
  split; [reflexivity |]. split; [reflexivity |].
  exists data, results, corrected. repeat split; assumption.
Qed.

Lemma download_is_rewound_document_witness :
  true = true
  /\ "corrected.geojson" = "corrected.geojson"
  /\ exists data results corrected,
       load_as clockwise_doc "any" = Ok data
       /\ check_winding_and_geometry sample_shapely sample_str_of_exn data = Ok results
       /\ should_rewind (force_ccw "Counterclockwise") results = true
       /\ sample_rewind data (force_ccw "Counterclockwise") = Ok corrected
       /\ sample_dumps corrected = Ok "{}".
Proof.
  apply (@download_is_rewound_document sample_shapely sample_str_of_exn
           (load_as clockwise_doc) sample_dumps sample_format sample_add_layer
           sample_rewind "Counterclockwise" "any" true
           "Download Corrected GeoJSON" "{}" "corrected.geojson").
  vm_compute. right. right. right. right. left. reflexivity.
Defined.

(** * Integer coordinates: the sign of the float is the sign of the sum *)

Section FloatSign.

Local Unset Implicit Arguments.

Lemma digits2_log2 (p : positive) : Z.pos (digits2_pos p) = Z.log2 (Z.pos p) + 1.
Proof.
  induction p as [p IH | p IH |]; cbn [digits2_pos].
  - rewrite Pos2Z.inj_succ, IH.
    change (Z.pos p~1) with (2 * Z.pos p + 1). rewrite Z.log2_succ_double by lia. lia.
  - rewrite Pos2Z.inj_succ, IH.
    change (Z.pos p~0) with (2 * Z.pos p). rewrite Z.log2_double by lia. lia.
  - reflexivity.
Qed.

Lemma shr_1_m (r : shr_record) : 0 <= shr_m r -> shr_m (shr_1 r) = Z.div2 (shr_m r).
Proof.
  destruct r as [m b s]. cbn [shr_m]. intros H.
  destruct m as [| [p | p |] | p]; try reflexivity. lia.
Qed.

Lemma iter_shr_1_m (k : positive) (r : shr_record) :
  0 <= shr_m r -> shr_m (iter_pos shr_1 k r) = Z.shiftr (shr_m r) (Z.pos k).
Proof.
  revert r. induction k as [k IH | k IH |]; intros r H; cbn [iter_pos].
  - assert (H1 : 0 <= shr_m (shr_1 r)) by (rewrite shr_1_m by lia; apply Z.div2_nonneg; lia).
    assert (H2 : 0 <= shr_m (iter_pos shr_1 k (shr_1 r)))
      by (rewrite IH by lia; apply Z.shiftr_nonneg; lia).
    rewrite IH, IH, shr_1_m by lia.
    rewrite Z.div2_spec, !Z.shiftr_shiftr by lia. f_equal. lia.
  - assert (H2 : 0 <= shr_m (iter_pos shr_1 k r))
      by (rewrite IH by lia; apply Z.shiftr_nonneg; lia).
    rewrite IH, IH by lia. rewrite Z.shiftr_shiftr by lia. f_equal. lia.
  - rewrite shr_1_m by lia. apply Z.div2_spec.
Qed.

Lemma shr_record_of_loc_m (m : Z) (l : location) : shr_m (shr_record_of_loc m l) = m.
Proof. destruct l as [| []]; reflexivity. Qed.

Lemma shr_spec (m : Z) (l : location) (e n : Z) :
  0 <= m ->
  shr_m (fst (shr (shr_record_of_loc m l) e n)) = Z.shiftr m (Z.max 0 n)
  /\ snd (shr (shr_record_of_loc m l) e n) = e + Z.max 0 n.
Proof.
  intros Hm. destruct n as [| k | k]; cbn [shr fst snd].
  - rewrite shr_record_of_loc_m. cbn. split; [reflexivity | lia].
  - rewrite iter_shr_1_m by (rewrite shr_record_of_loc_m; exact Hm).
    rewrite shr_record_of_loc_m. split; [reflexivity | lia].
  - rewrite shr_record_of_loc_m. cbn. split; [reflexivity | lia].
Qed.

Lemma round_nearest_even_bounds (m : Z) (l : location) :
  m <= round_nearest_even m l <= m + 1.
Proof.
  destruct l as [| []]; cbn [round_nearest_even]; try lia.
  destruct (Z.even m); lia.
Qed.

Lemma shiftr_pos (m k : Z) : 0 < m -> 0 <= k <= Z.log2 m -> 0 < Z.shiftr m k.
Proof.
  intros Hm Hk.
  assert (H0 : 0 <= Z.shiftr m k) by (apply Z.shiftr_nonneg; lia).
  assert (Hne : Z.shiftr m k <> 0).
  { intros E. apply Z.shiftr_eq_0_iff in E. destruct E as [E | [_ E]]; lia. }
  lia.
Qed.

Lemma Zdigits2_log2 (m : Z) : 0 < m -> Zdigits2 m = Z.log2 m + 1.
Proof.
  destruct m as [| p | p]; try lia. intros _. apply digits2_log2.
Qed.

(** Rounding a positive mantissa that is not below the subnormal range gives
    a float of the asked sign, finite or infinite, never zero. *)
Lemma binary_round_aux_positive (sx : bool) (p : positive) (ex : Z) (lx : location) :
  -1074 < Z.log2 (Z.pos p) + 1 + ex ->
  (exists m e,
     binary_round_aux prec emax sx (Z.pos p) ex lx = S754_finite sx m e
     /\ ex <= e /\ Z.log2 (Z.pos p) + 1 + ex - 53 <= e <= 971)
  \/ (binary_round_aux prec emax sx (Z.pos p) ex lx = S754_infinity sx
      /\ 971 < Z.max ex (Z.log2 (Z.pos p) + 1 + ex + 1 - 53)).
Proof.
  intros Hmag. unfold binary_round_aux, shr_fexp.
  pose proof (Z.log2_nonneg (Z.pos p)) as Hlog.
  rewrite (Zdigits2_log2 (Z.pos p)) by lia.
  set (n1 := fexp prec emax (Z.log2 (Z.pos p) + 1 + ex) - ex).
  destruct (shr_spec (Z.pos p) lx ex n1 (Pos2Z.is_nonneg p)) as [Hm1 He1].
  destruct (shr (shr_record_of_loc (Z.pos p) lx) ex n1) as [mrs1 e1].
  cbn [fst snd] in Hm1, He1.
  assert (Hn1 : n1 = Z.max (Z.log2 (Z.pos p) + 1 + ex - 53) (-1074) - ex) by reflexivity.
  assert (Hk1 : 0 <= Z.max 0 n1 <= Z.log2 (Z.pos p)) by lia.
  assert (Hpos1 : 0 < shr_m mrs1) by (rewrite Hm1; apply shiftr_pos; lia).
  assert (Hlog1 : Z.log2 (shr_m mrs1) = Z.log2 (Z.pos p) - Z.max 0 n1).
  { rewrite Hm1, Z.log2_shiftr by lia. lia. }
  pose proof (round_nearest_even_bounds (shr_m mrs1) (loc_of_shr_record mrs1)) as Hround.
  set (m2 := round_nearest_even (shr_m mrs1) (loc_of_shr_record mrs1)) in *.
  assert (Hlog2 : Z.log2 (shr_m mrs1) <= Z.log2 m2 <= Z.log2 (shr_m mrs1) + 1).
  { split; [apply Z.log2_le_mono; lia |].
    apply Z.le_trans with (Z.log2 (2 * shr_m mrs1)).
    - apply Z.log2_le_mono. lia.
    - rewrite Z.log2_double by lia. lia. }
  rewrite (Zdigits2_log2 m2) by lia.
  set (n2 := fexp prec emax (Z.log2 m2 + 1 + e1) - e1).
  assert (Hm2 : 0 <= m2) by lia.
  destruct (shr_spec m2 loc_Exact e1 n2 Hm2) as [Hm3 He3].
  destruct (shr (shr_record_of_loc m2 loc_Exact) e1 n2) as [mrs3 e3].
  cbn [fst snd] in Hm3, He3.
  assert (Hn2 : n2 = Z.max (Z.log2 m2 + 1 + e1 - 53) (-1074) - e1) by reflexivity.
  assert (Hk2 : 0 <= Z.max 0 n2 <= Z.log2 m2) by lia.
  assert (Hpos3 : 0 < shr_m mrs3) by (rewrite Hm3; apply shiftr_pos; lia).
  destruct (shr_m mrs3) as [| m | m]; try lia.
  change (emax - prec) with 971.
  destruct (e3 <=? 971) eqn:Hle.
  - left. exists m, e3. apply Z.leb_le in Hle. split; [reflexivity | lia].
  - right. split; [reflexivity |]. apply Z.leb_gt in Hle. lia.
Qed.

Lemma binary_round_aux_sign (sx : bool) (mx ex : Z) (lx : location) :
  binary_round_aux prec emax sx mx ex lx = S754_zero sx
  \/ (exists m e, binary_round_aux prec emax sx mx ex lx = S754_finite sx m e)
  \/ binary_round_aux prec emax sx mx ex lx = S754_infinity sx
  \/ binary_round_aux prec emax sx mx ex lx = S754_nan.
Proof.
  unfold binary_round_aux.
  destruct (shr_fexp prec emax mx ex lx) as [mrs1 e1].
  destruct (shr_fexp prec emax _ e1 loc_Exact) as [mrs3 e3].
  destruct (shr_m mrs3) as [| m | m].
  - left. reflexivity.
  - destruct (e3 <=? emax - prec).
    + right. left. exists m, e3. reflexivity.
    + right. right. left. reflexivity.
  - right. right. right. reflexivity.
Qed.

Lemma iter_xO (p d : positive) : Z.pos (Pos.iter xO p d) = Z.pos p * 2 ^ Z.pos d.
Proof.
  induction d as [| d IH] using Pos.peano_ind.
  - cbn [Pos.iter]. lia.
  - rewrite Pos.iter_succ, Pos2Z.inj_succ, Z.pow_succ_r by lia.
    rewrite Pos2Z.inj_xO, IH. lia.
Qed.

Lemma shl_align_spec (p : positive) (ex ex' : Z) :
  snd (shl_align p ex ex') = Z.min ex ex'
  /\ Z.log2 (Z.pos (fst (shl_align p ex ex'))) + snd (shl_align p ex ex')
     = Z.log2 (Z.pos p) + ex.
Proof.
  unfold shl_align. destruct (ex' - ex) as [| d | d] eqn:E; cbn [fst snd].
  - split; lia.
  - split; lia.
  - rewrite iter_xO, Z.log2_mul_pow2 by lia. split; lia.
Qed.

(** [float(n)] for a non-zero [n]: finite of the sign of [n] with an
    exponent of at least -52, or too large. *)
Lemma binary_round_int (sx : bool) (p : positive) :
  (exists m e,
     binary_round prec emax sx p 0 = S754_finite sx m e
     /\ -52 <= e /\ Z.log2 (Z.pos p) <= 1023)
  \/ (binary_round prec emax sx p 0 = S754_infinity sx /\ 1023 <= Z.log2 (Z.pos p)).
Proof.
  unfold binary_round.
  pose proof (Z.log2_nonneg (Z.pos p)) as Hlog.
  rewrite digits2_log2.
  set (ex' := fexp prec emax (Z.log2 (Z.pos p) + 1 + 0)).
  assert (Hex' : ex' = Z.max (Z.log2 (Z.pos p) + 1 + 0 - 53) (-1074)) by reflexivity.
  destruct (shl_align_spec p 0 ex') as [Hez Hmag].
  destruct (shl_align p 0 ex') as [mz ez]. cbn [fst snd] in Hez, Hmag.
  destruct (binary_round_aux_positive sx mz ez loc_Exact) as [(m & e & -> & He & Hb) | [-> Hinf]].
  - lia.
  - left. exists m, e. split; [reflexivity | lia].
  - right. split; [reflexivity | lia].
Qed.

Lemma half_times_positive (m : positive) (e : Z) :
  -52 <= e ->
  SFltb fzero (SFmul prec emax fhalf (S754_finite false m e)) = true.
Proof.
  intros He. unfold fhalf. cbn [SFmul xorb].
  pose proof (Z.log2_nonneg (Z.pos (4503599627370496 * m))) as Hlog.
  destruct (binary_round_aux_positive false (4503599627370496 * m) (-53 + e) loc_Exact)
    as [(m' & e' & -> & _) | [-> _]]; [lia | reflexivity | reflexivity].
Qed.

Lemma not_positive_of_sign (x : spec_float) :
  x = S754_zero true \/ (exists m e, x = S754_finite true m e)
  \/ x = S754_infinity true \/ x = S754_nan ->
  SFltb fzero x = false.
Proof.
  intros [-> | [(m & e & ->) | [-> | ->]]]; reflexivity.
Qed.

Lemma half_times_negative (m : positive) (e : Z) :
  SFltb fzero (SFmul prec emax fhalf (S754_finite true m e)) = false.
Proof.
  unfold fhalf. cbn [SFmul xorb].
  apply not_positive_of_sign, binary_round_aux_sign.
Qed.

(** The sign test on [0.5 * float(n)] is the sign test on the integer. *)
Lemma half_float_sign (s : Z) (f : spec_float) :
  float_of_int s = Ok f ->
  SFltb fzero (SFmul prec emax fhalf f) = (0 <? s).
Proof.
  unfold float_of_int. destruct s as [| p | p]; cbn [binary_normalize].
  - intros H. injection H as <-. reflexivity.
  - destruct (binary_round_int false p) as [(m & e & -> & He & _) | [-> _]]; intros H.
    + injection H as <-. rewrite half_times_positive by exact He. reflexivity.
    + discriminate H.
  - unfold binary_round.
    destruct (shl_align p 0 _) as [mz ez].
    destruct (binary_round_aux_sign true (Z.pos mz) ez loc_Exact)
      as [-> | [(m & e & ->) | [-> | ->]]]; intros H; try discriminate H;
      injection H as <-; try reflexivity.
    apply half_times_negative.
Qed.

Lemma float_of_int_fits (s : Z) :
  Z.abs s < 2 ^ 1023 -> exists f, float_of_int s = Ok f.
Proof.
  intros Hs. unfold float_of_int. destruct s as [| p | p]; cbn [binary_normalize].
  - eexists. reflexivity.
  - destruct (binary_round_int false p) as [(m & e & -> & _) | [_ Hbig]].
    + eexists. reflexivity.
    + cbn [Z.abs] in Hs. apply Z.log2_lt_pow2 in Hs; lia.
  - destruct (binary_round_int true p) as [(m & e & -> & _) | [_ Hbig]].
    + eexists. reflexivity.
    + cbn [Z.abs Z.opp] in Hs. apply Z.log2_lt_pow2 in Hs; lia.
Qed.

Lemma float_of_int_overflow (s : Z) :
  2 ^ 1024 <= Z.abs s -> float_of_int s = Raise OverflowError.
Proof.
  intros Hs. unfold float_of_int.
  assert (Hlog : 1024 <= Z.log2 (Z.abs s)) by (apply Z.log2_le_pow2; lia).
  destruct s as [| p | p]; cbn [binary_normalize].
  - cbn in Hs. lia.
  - destruct (binary_round_int false p) as [(m & e & _ & _ & Hsmall) | [-> _]].
    + cbn [Z.abs] in Hlog. lia.
    + reflexivity.
  - destruct (binary_round_int true p) as [(m & e & _ & _ & Hsmall) | [-> _]].
    + cbn [Z.abs] in Hlog. lia.
    + reflexivity.
Qed.

End FloatSign.

Lemma shoelace_sum_step (acc : pyval) (p q : pyval * pyval) (rest : list (pyval * pyval)) :
  shoelace_sum acc (p :: q :: rest)
  = (t <- cross p q ;; acc' <- py_add acc t ;; shoelace_sum acc' (q :: rest)).
Proof. reflexivity. Qed.

Lemma shoelace_sum_int (pts : list (Z * Z)) (acc : Z) :
  shoelace_sum (PyInt acc) (int_pairs pts) = Ok (PyInt (acc + zshoelace pts)).
Proof.
  revert acc. induction pts as [| p pts IH]; intros acc.
  - cbn. rewrite Z.add_0_r. reflexivity.
  - destruct pts as [| q rest].
    + cbn. rewrite Z.add_0_r. reflexivity.
    + change (int_pairs (p :: q :: rest))
        with ((PyInt (fst p), PyInt (snd p))
                :: (PyInt (fst q), PyInt (snd q)) :: int_pairs rest).
      rewrite shoelace_sum_step.
      change (cross (PyInt (fst p), PyInt (snd p)) (PyInt (fst q), PyInt (snd q)))
        with (Ok (PyInt (fst p * snd q - fst q * snd p))).
      cbn [bind py_add as_num num_binop].
      change ((PyInt (fst q), PyInt (snd q)) :: int_pairs rest)
        with (int_pairs (q :: rest)).
      rewrite IH.
      change (zshoelace (p :: q :: rest))
        with ((fst p * snd q - fst q * snd p) + zshoelace (q :: rest)).
      f_equal. f_equal. lia.
Qed.

Lemma zshoelace_snoc (l : list (Z * Z)) (q p : Z * Z) :
  zshoelace (l ++ [q; p])%list = zshoelace (l ++ [q])%list + (fst q * snd p - fst p * snd q).
Proof.
  induction l as [| a l IH].
  - cbn [app zshoelace]. lia.
  - destruct l as [| b l].
    + cbn [app zshoelace]. lia.
    + change (zshoelace ((a :: b :: l) ++ [q; p])%list)
        with ((fst a * snd b - fst b * snd a) + zshoelace ((b :: l) ++ [q; p])%list).
      change (zshoelace ((a :: b :: l) ++ [q])%list)
        with ((fst a * snd b - fst b * snd a) + zshoelace ((b :: l) ++ [q])%list).
      rewrite IH. lia.
Qed.

Lemma zshoelace_rev (pts : list (Z * Z)) : zshoelace (rev pts) = - zshoelace pts.
Proof.
  induction pts as [| p pts IH].
  - reflexivity.
  - destruct pts as [| q rest].
    + reflexivity.
    + change (rev (p :: q :: rest)) with ((rev rest ++ [q]) ++ [p])%list.
      rewrite <- app_assoc. cbn [app].
      rewrite zshoelace_snoc.
      change (rev rest ++ [q])%list with (rev (q :: rest)).
      rewrite IH.
      change (zshoelace (p :: q :: rest))
        with ((fst p * snd q - fst q * snd p) + zshoelace (q :: rest)).
      lia.
Qed.

Lemma int_ring_area (pts : list (Z * Z)) :
  pts <> [] ->
  calculate_signed_area (int_ring pts)
  = (f <- float_of_int (zshoelace pts) ;; Ok (PyFloat (SFmul prec emax fhalf f))).
Proof.
  intros H. unfold int_ring.
  rewrite signed_area_of_pairs
    by (destruct pts; [contradiction H; reflexivity | discriminate]).
  unfold shoelace_formula. rewrite shoelace_sum_int. reflexivity.
Qed.

Lemma int_ring_winding (pts : list (Z * Z)) (props : pyval) (st : feature_state) :
  pts <> [] ->
  Z.abs (zshoelace pts) < 2 ^ 1023 ->
  analyze_ring props st (int_ring pts)
  = wound_result props st (if 0 <? zshoelace pts then Counterclockwise else Clockwise).
Proof.
  intros Hne Hfit.
  destruct (float_of_int_fits _ Hfit) as (f & Hf).
  assert (Harea : calculate_signed_area (int_ring pts)
                  = Ok (PyFloat (SFmul prec emax fhalf f)))
    by (rewrite int_ring_area by exact Hne; rewrite Hf; reflexivity).
  rewrite (@analyze_ring_ok props st _ _ Harea).
  rewrite (half_float_sign _ _ Hf). reflexivity.
Qed.

(** On a ring of integer coordinates whose shoelace sum [s] (twice the signed
    area) is below [2^1023] in magnitude, the winding is decided by the
    exact sign of [s]: Counterclockwise when [s > 0], Clockwise otherwise,
    never Unknown; rounding to a float does not change the verdict. *)
Theorem integer_ring_winding (pts : list (Z * Z)) (props : pyval) (st : feature_state) :
  pts <> [] ->
  Z.abs (zshoelace pts) < 2 ^ 1023 ->
  analyze_ring props st (int_ring pts)
  = wound_result props st (if 0 <? zshoelace pts then Counterclockwise else Clockwise).
Proof.
  apply int_ring_winding.
Qed.

Lemma integer_ring_winding_witness :
  analyze_ring (PyDict []) valid_state (int_ring [(0, 0); (4, 0); (4, 3); (0, 0)])
  = wound_result (PyDict []) valid_state Counterclockwise.
Proof.
  apply (@integer_ring_winding [(0, 0); (4, 0); (4, 3); (0, 0)] (PyDict []) valid_state).
  - discriminate.
  - vm_compute. reflexivity.
Defined.

(** Reversing the vertex order of an integer ring of non-zero area switches
    its winding between Counterclockwise and Clockwise. *)
Theorem reversed_integer_ring_switches (pts : list (Z * Z)) (props : pyval)
    (st : feature_state) :
  pts <> [] ->
  Z.abs (zshoelace pts) < 2 ^ 1023 ->
  zshoelace pts <> 0 ->
  (winding (analyze_ring props st (int_ring pts)) = Counterclockwise
   /\ winding (analyze_ring props st (int_ring (rev pts))) = Clockwise)
  \/ (winding (analyze_ring props st (int_ring pts)) = Clockwise
      /\ winding (analyze_ring props st (int_ring (rev pts))) = Counterclockwise).
Proof.
  intros Hne Hfit Hnz.
  assert (Hne' : rev pts <> [])
    by (intros E; apply Hne; rewrite <- (rev_involutive pts), E; reflexivity).
  assert (Hfit' : Z.abs (zshoelace (rev pts)) < 2 ^ 1023)
    by (rewrite zshoelace_rev, Z.abs_opp; exact Hfit).
  rewrite (@int_ring_winding pts props st Hne Hfit).
  rewrite (@int_ring_winding (rev pts) props st Hne' Hfit').
  rewrite zshoelace_rev. cbn [winding wound_result].
  destruct (0 <? zshoelace pts) eqn:E1; destruct (0 <? - zshoelace pts) eqn:E2;
    try apply Z.ltb_lt in E1; try apply Z.ltb_lt in E2;
    try apply Z.ltb_ge in E1; try apply Z.ltb_ge in E2;
    first [lia | left; split; reflexivity | right; split; reflexivity].
Qed.

Lemma reversed_integer_ring_switches_witness :
  (winding (analyze_ring (PyDict []) valid_state
              (int_ring [(0, 0); (4, 0); (4, 3); (0, 0)])) = Counterclockwise
   /\ winding (analyze_ring (PyDict []) valid_state
                 (int_ring (rev [(0, 0); (4, 0); (4, 3); (0, 0)]))) = Clockwise)
  \/ (winding (analyze_ring (PyDict []) valid_state
                 (int_ring [(0, 0); (4, 0); (4, 3); (0, 0)])) = Clockwise
      /\ winding (analyze_ring (PyDict []) valid_state
                    (int_ring (rev [(0, 0); (4, 0); (4, 3); (0, 0)]))) = Counterclockwise).
Proof.
  apply (@reversed_integer_ring_switches [(0, 0); (4, 0); (4, 3); (0, 0)]
           (PyDict []) valid_state).
  - discriminate.
  - vm_compute. reflexivity.
  - vm_compute. discriminate.
Defined.

(** An integer ring whose shoelace sum reaches [2^1024] in magnitude cannot
    be turned into a float: the multiplication by [0.5] raises
    [OverflowError] and the ring is recorded Unknown. *)
Theorem huge_integer_ring_is_unknown (pts : list (Z * Z)) (props : pyval)
    (st : feature_state) :
  pts <> [] ->
  2 ^ 1024 <= Z.abs (zshoelace pts) ->
  calculate_signed_area (int_ring pts) = Raise OverflowError
  /\ analyze_ring props st (int_ring pts) = unknown_result props.
Proof.
  intros Hne Hbig.
  assert (Harea : calculate_signed_area (int_ring pts) = Raise OverflowError)
    by (rewrite int_ring_area by exact Hne;
        rewrite (float_of_int_overflow _ Hbig); reflexivity).
  split; [exact Harea |].
  exact (@analyze_ring_raise props st _ _ Harea).
Qed.

Lemma huge_integer_ring_is_unknown_witness :
  calculate_signed_area (int_ring [(0, 0); (2 ^ 600, 0); (2 ^ 600, 2 ^ 600); (0, 0)])
  = Raise OverflowError
  /\ analyze_ring (PyDict []) valid_state
       (int_ring [(0, 0); (2 ^ 600, 0); (2 ^ 600, 2 ^ 600); (0, 0)])
     = unknown_result (PyDict []).
Proof.
  apply (@huge_integer_ring_is_unknown
           [(0, 0); (2 ^ 600, 0); (2 ^ 600, 2 ^ 600); (0, 0)] (PyDict []) valid_state).
  - discriminate.
  - vm_compute. discriminate.
Defined.

(** * The documents the analysis returns on *)

Lemma iterable_iff (v : pyval) : (exists l, py_iter v = Ok l) <-> iterable v = true.
Proof.
  destruct v; cbn; split; intros H;
    try (destruct H as (l & H)); try discriminate; try reflexivity;
    eexists; reflexivity.
Qed.

Lemma mapM_ok_iff (A B : Type) (f : A -> result B) (ok : A -> bool) (l : list A) :
  (forall a, (exists b, f a = Ok b) <-> ok a = true) ->
  (exists bs, mapM f l = Ok bs) <-> forallb ok l = true.
Proof.
  intros Hf. induction l as [| a l IH]; cbn [mapM forallb].
  - split; [reflexivity | intros _; eexists; reflexivity].
  - rewrite andb_true_iff, <- IH, <- Hf. split.
    + intros (bs & H). apply bind_ok in H. destruct H as (b & Hb & H).
      apply bind_ok in H. destruct H as (bs' & Hbs & _).
      split; eexists; eassumption.
    + intros [(b & Hb) (bs & Hbs)]. rewrite Hb, Hbs. eexists. reflexivity.
Qed.

Lemma rings_readable_iff (geom : pyval) :
  (exists items, (rings <- extract_rings geom ;; py_iter rings) = Ok items)
  <-> rings_readable geom = true.
Proof.
  destruct geom as [| b | z | f | s | l | gd];
    try (cbn; split; [intros (items & H); discriminate H | discriminate]).
  unfold extract_rings, rings_readable. cbn [py_getitem].
  destruct (assoc "type" gd) as [ty |];
    [| cbn; split; [intros (items & H); discriminate H | discriminate]].
  cbn [bind].
  destruct (py_eq_str ty "Polygon").
  - destruct (assoc "coordinates" gd) as [c |];
      [| cbn; split; [intros (items & H); discriminate H | discriminate]].
    cbn [bind]. apply iterable_iff.
  - destruct (py_eq_str ty "MultiPolygon").
    + destruct (assoc "coordinates" gd) as [c |];
        [| cbn; split; [intros (items & H); discriminate H | discriminate]].
      cbn [bind].
      destruct (py_iter c) as [polys | e];
        [| cbn; split; [intros (items & H); discriminate H | discriminate]].
      cbn [bind]. rewrite <- (mapM_ok_iff py_iter iterable polys iterable_iff).
      split.
      * intros (items & H). apply bind_ok in H. destruct H as (rings & H & _).
        apply bind_ok in H. destruct H as (parts & Hparts & _).
        exists parts. exact Hparts.
      * intros (parts & ->). eexists. reflexivity.
    + cbn. split; [reflexivity | intros _; eexists; reflexivity].
Qed.

Lemma feature_readable_iff (sh : shapely) (str_of_exn : exn -> string) (feature : pyval) :
  (exists results, check_feature sh str_of_exn feature = Ok results)
  <-> feature_readable feature = true.
Proof.
  unfold check_feature, feature_readable.
  destruct feature as [| b | z | f | s | l | d];
    try (cbn; split; [intros (rs & H); discriminate H | discriminate]).
  cbn [py_get bind].
  destruct (assoc "geometry" d) as [geom |].
  - rewrite <- rings_readable_iff. split.
    + intros (rs & H). apply bind_ok in H. destruct H as (rings & Hrings & H).
      apply bind_ok in H. destruct H as (items & Hitems & _).
      exists items. rewrite Hrings. exact Hitems.
    + intros (items & H). apply bind_ok in H. destruct H as (rings & Hrings & Hitems).
      rewrite Hrings. cbn [bind]. rewrite Hitems. eexists. reflexivity.
  - cbn. split; [intros (rs & H); discriminate H | discriminate].
Qed.

(** The analysis returns (rather than raises) exactly on the documents that
    are a dict whose [features], if present, can be iterated and hold only
    dicts with a geometry that is a dict with a [type] and, for a Polygon
    or MultiPolygon, with coordinates that can be iterated; this does not
    depend on shapely. *)
Theorem analysis_returns_iff_readable (sh : shapely) (str_of_exn : exn -> string)
    (geojson : pyval) :
  (exists results, check_winding_and_geometry sh str_of_exn geojson = Ok results)
  <-> document_readable geojson = true.
Proof.
  unfold check_winding_and_geometry, document_readable.
  destruct geojson as [| b | z | f | s | l | d];
    try (cbn; split; [intros (rs & H); discriminate H | discriminate]).
  cbn [py_get bind].
  destruct (assoc "features" d) as [fs |].
  - destruct (py_iter fs) as [features | e];
      [| cbn; split; [intros (rs & H); discriminate H | discriminate]].
    cbn [bind].
    rewrite <- (mapM_ok_iff (check_feature sh str_of_exn) feature_readable features
                  (feature_readable_iff sh str_of_exn)).
    split.
    + intros (rs & H). apply bind_ok in H. destruct H as (per & Hper & _).
      exists per. exact Hper.
    + intros (per & ->). eexists. reflexivity.
  - cbn. split; [reflexivity | intros _; eexists; reflexivity].
Qed.
